(** * Offline workflow manager: a shallow embedding of
      [offline_workflow_manager.py] and the properties of its operations.

    The program keeps three SQLite tables (employees, tasks, shifts) in one
    file and offers six commands on them.  Every operation opens a
    connection, runs one statement (or one query), commits and returns, so
    an operation is modelled as a function from the database before the call
    to the database after it, together with what it prints or writes.

    Conventions of the model:
    - Python [str] and SQLite TEXT are [string]s, read as UTF-8 bytes; a
      command-line argument that is not UTF-8 has no counterpart here;
    - Python [int] is [Z]; SQLite INTEGER is the signed 64-bit part of it,
      and the [sqlite3] driver refuses to bind an [int] outside that part;
    - [None] and SQL NULL are [None] of an [option];
    - the wall clock read by [dt.datetime.now()] is an explicit argument;
    - both entry points call [init_db] before anything else, so the
      operations are defined on a [database], a file that has its three
      tables, and [init_db] alone sees a [store] where a table may be
      missing;
    - [main] is the function [main()]; the prompt for a name and a
      password that the script shows before calling it checks nothing and
      is left out;
    - FOREIGN KEY clauses are not enforced (the program never turns
      [PRAGMA foreign_keys] on);
    - an AUTOINCREMENT table that has used its last key refuses the
      insert ([OperationalError]); other storage and file-system faults
      (disk full, locked file) are outside the model. *)

From Stdlib Require Import ZArith List String Ascii Bool Lia DecimalString.
Import ListNotations.

Local Open Scope string_scope.
Local Open Scope Z_scope.

(* ================================================================== *)
(** ** Text helpers *)

(** U+2011 NON-BREAKING HYPHEN as its three UTF-8 bytes E2 80 91.  The
    source spells the middle status value with this character, both in
    the schema's CHECK constraint and in the parser's [choices]. *)
Definition nb_hyphen : string :=
  String (ascii_of_nat 226) (String (ascii_of_nat 128)
    (String (ascii_of_nat 145) EmptyString)).

Definition dquote : ascii := ascii_of_nat 34.
Definition CR : ascii := ascii_of_nat 13.
Definition LF : ascii := ascii_of_nat 10.
Definition comma : ascii := ascii_of_nat 44.
Definition CRLF : string := String CR (String LF EmptyString).

(** A UTF-8 continuation byte is 10xxxxxx. *)
Definition is_continuation (c : ascii) : bool :=
  let n := nat_of_ascii c in (Nat.leb 128 n && Nat.ltb n 192)%bool.

(** [len(s)] of a Python [str]: the number of code points, that is the
    number of bytes which do not continue a code point. *)
Fixpoint py_len (s : string) : nat :=
  match s with
  | EmptyString => O
  | String c s' => (if is_continuation c then py_len s' else S (py_len s'))
  end.

Fixpoint repeat_char (c : ascii) (n : nat) : string :=
  match n with
  | O => EmptyString
  | S n' => String c (repeat_char c n')
  end.

(** [format(s, "w")] for a [str]: left-aligned, padded with spaces. *)
Definition ljust (w : nat) (s : string) : string :=
  s ++ repeat_char " "%char (w - py_len s).

(** [format(n, "w")] for an [int]: right-aligned, padded with spaces. *)
Definition rjust (w : nat) (s : string) : string :=
  repeat_char " "%char (w - py_len s) ++ s.

(** [str(n)] for an [int]. *)
Definition str_of_int (z : Z) : string :=
  NilZero.string_of_int (Z.to_int z).

(** Decimal digits padded with zeros on the left to [w] characters. *)
Definition zfill (w : nat) (s : string) : string :=
  repeat_char "0"%char (w - String.length s) ++ s.

Definition is_digit (c : ascii) : bool :=
  let n := nat_of_ascii c in (Nat.leb 48 n && Nat.leb n 57)%bool.

(* ================================================================== *)
(** ** The clock *)

(** What [dt.datetime.now()] gives, down to the minute (seconds and
    microseconds are never formatted by the program). *)
Record datetime : Set := mk_datetime {
  year : Z;
  month : Z;
  day : Z;
  hour : Z;
  minute : Z
}.

(** A reading of the clock whose year has four digits (a Python
    [datetime] holds the years 1 to 9999). *)
Definition datetime_ok (d : datetime) : Prop :=
  1000 <= year d <= 9999 /\ 1 <= month d <= 12 /\
  1 <= day d <= 31 /\ 0 <= hour d <= 23 /\ 0 <= minute d <= 59.

(** [DATE_FMT = "%Y-%m-%d %H:%M"]: [%Y] is the year as a decimal
    number, written without padding (the C library of the platform pads
    none below the year 1000: the year 999 gives ["999"]); month, day, hour
    and minute are padded with zeros to two digits. *)
Definition strftime_DATE_FMT (d : datetime) : string :=
  str_of_int (year d) ++ "-" ++ zfill 2 (str_of_int (month d)) ++ "-"
    ++ zfill 2 (str_of_int (day d)) ++ " " ++ zfill 2 (str_of_int (hour d))
    ++ ":" ++ zfill 2 (str_of_int (minute d)).

(** ["%Y%m%d_%H%M"], the stamp of the export directory. *)
Definition strftime_stamp (d : datetime) : string :=
  str_of_int (year d) ++ zfill 2 (str_of_int (month d))
    ++ zfill 2 (str_of_int (day d)) ++ "_" ++ zfill 2 (str_of_int (hour d))
    ++ zfill 2 (str_of_int (minute d)).

(** The shape [YYYY-MM-DD HH:MM]: sixteen characters, digits everywhere
    but at the four separators. *)
Fixpoint shape_ok (pattern s : string) : bool :=
  match pattern, s with
  | EmptyString, EmptyString => true
  | String p pattern', String c s' =>
      ((if Ascii.eqb p "9"%char then is_digit c else Ascii.eqb p c)
       && shape_ok pattern' s')%bool
  | _, _ => false
  end.


(* ================================================================== *)
(** ** The data model: rows, tables, the database file *)

Record employee : Set := mk_employee {
  emp_id : Z;
  emp_name : string;
  emp_role : string;
  emp_active : Z
}.

Record task : Set := mk_task {
  task_id : Z;
  task_title : string;
  task_description : option string;
  task_assignee_id : option Z;
  task_status : string;
  task_deadline : option string;
  task_created : string;
  task_updated : string
}.

Record shift : Set := mk_shift {
  shift_id : Z;
  shift_employee_id : option Z;
  shift_start : string;
  shift_end : string
}.

(** A table with an [INTEGER PRIMARY KEY AUTOINCREMENT]: its rows in
    storage (rowid) order, and its entry in [sqlite_sequence], the
    largest key handed out so far. *)
Record table (R : Set) : Set := mk_table {
  rows : list R;
  seq : Z
}.
Arguments mk_table {R} _ _.
Arguments rows {R} _.
Arguments seq {R} _.

Definition empty_table {R : Set} : table R := mk_table [] 0.

(** The file [workflow.db] as it may be found: each table present or not. *)
Record store : Set := mk_store {
  st_employees : option (table employee);
  st_tasks : option (table task);
  st_shifts : option (table shift)
}.

(** The file once the schema is there: all three tables. *)
Record database : Set := mk_database {
  employees : table employee;
  tasks : table task;
  shifts : table shift
}.

Definition empty_store : store := mk_store None None None.

Definition store_of (d : database) : store :=
  mk_store (Some (employees d)) (Some (tasks d)) (Some (shifts d)).

(* ================================================================== *)
(** ** Exceptions *)

Inductive exception : Set :=
| IntegrityError   (* a CHECK constraint failed *)
| OverflowError    (* Python int too large to convert to SQLite INTEGER *)
| OperationalError. (* database or disk is full: no key left to give *)

Inductive result (A : Type) : Type :=
| Ok (a : A)
| Raise (e : exception).
Arguments Ok {A} _.
Arguments Raise {A} _.

Definition bind {A B : Type} (r : result A) (k : A -> result B) : result B :=
  match r with
  | Ok a => k a
  | Raise e => Raise e
  end.

Notation "x <- r ;; k" := (bind r (fun x => k))
  (at level 61, r at next level, right associativity).

(** The driver binds a Python [int] as a signed 64-bit INTEGER. *)
Definition sqlite_int64 (z : Z) : bool :=
  (- 2 ^ 63 <=? z) && (z <? 2 ^ 63).

Definition bind_int (z : Z) : result Z :=
  if sqlite_int64 z then Ok z else Raise OverflowError.

Definition bind_opt_int (o : option Z) : result (option Z) :=
  match o with
  | None => Ok None
  | Some z => z' <- bind_int z ;; Ok (Some z')
  end.

(* ================================================================== *)
(** ** [init_db] *)

(** [CREATE TABLE IF NOT EXISTS] on one table. *)
Definition create_if_not_exists {R : Set} (t : option (table R)) : table R :=
  match t with
  | Some tb => tb
  | None => empty_table
  end.

Definition init_db (s : store) : database :=
  mk_database (create_if_not_exists (st_employees s))
              (create_if_not_exists (st_tasks s))
              (create_if_not_exists (st_shifts s)).

(** The two CHECK constraints of the schema. *)
Definition role_values : list string := ["staff"; "manager"].

Definition status_values : list string :=
  ["todo"; "in" ++ nb_hyphen ++ "progress"; "done"].

Definition str_in (s : string) (l : list string) : bool :=
  existsb (String.eqb s) l.

Definition role_check (role : string) : bool := str_in role role_values.
Definition status_check (status : string) : bool := str_in status status_values.

(** The largest key SQLite has. *)
Definition MAX_ROWID : Z := 2 ^ 63 - 1.

(** The largest key in a table, if it has a row. *)
Definition largest_key (ids : list Z) : option Z :=
  match ids with
  | [] => None
  | i :: l => Some (fold_right Z.max i l)
  end.

(** The key of a new row of an AUTOINCREMENT table: one more than the
    largest key in the table (1 when the table is empty), or one more than
    the table's counter in [sqlite_sequence] if that is larger.  When the
    largest key or the counter is the largest key there is, the insert is
    refused with SQLITE_FULL, which the driver raises as
    [OperationalError]. *)
Definition next_id (ids : list Z) (sq : Z) : result Z :=
  match largest_key ids with
  | None =>
      if MAX_ROWID <=? sq then Raise OperationalError
      else Ok (Z.max 1 (sq + 1))
  | Some m =>
      if ((MAX_ROWID <=? m) || (MAX_ROWID <=? sq))%bool
      then Raise OperationalError
      else Ok (Z.max (m + 1) (sq + 1))
  end.

(* ================================================================== *)
(** ** Employees *)

(** [INSERT INTO employees (name, role, active) VALUES (?,?,1)].  The
    key is chosen before the CHECK on [role] is evaluated. *)
Definition add_employee (name role : string) (d : database)
  : result database :=
  let tb := employees d in
  id <- next_id (map emp_id (rows tb)) (seq tb) ;;
  if role_check role then
    Ok (mk_database
          (mk_table (rows tb ++ [mk_employee id name role 1]) id)
          (tasks d) (shifts d))
  else Raise IntegrityError.

(** [SELECT id, name, role, active FROM employees], with
    [WHERE active=1] when [active_only]. *)
Definition select_employees (active_only : bool) (d : database)
  : list employee :=
  if active_only
  then filter (fun e => emp_active e =? 1) (rows (employees d))
  else rows (employees d).

(** Truth value of a Python [int]. *)
Definition truthy_int (z : Z) : bool := negb (z =? 0).

Definition employee_line (e : employee) : string :=
  "#" ++ rjust 3 (str_of_int (emp_id e)) ++ " | " ++ ljust 20 (emp_name e)
    ++ " | " ++ ljust 8 (emp_role e) ++ " | "
    ++ (if truthy_int (emp_active e) then "active" else "inactive").

(** What [list_employees] prints, one element per [print]. *)
Definition list_employees (active_only : bool) (d : database) : list string :=
  map employee_line (select_employees active_only d).

(* ================================================================== *)
(** ** Tasks *)

(** [INSERT INTO tasks (title, description, assignee_id, deadline,
    created, updated) VALUES (?,?,?,?,?,?)] with both stamps the same
    formatted clock reading; [status] takes its default ['todo']. *)
Definition add_task (now : datetime) (title : string)
    (description : option string) (assignee_id : option Z)
    (deadline : option string) (d : database) : result database :=
  let stamp := strftime_DATE_FMT now in
  a <- bind_opt_int assignee_id ;;
  let tb := tasks d in
  id <- next_id (map task_id (rows tb)) (seq tb) ;;
  Ok (mk_database (employees d)
        (mk_table
           (rows tb ++ [mk_task id title description a "todo" deadline
                                stamp stamp]) id)
        (shifts d)).

(** One row of [SELECT t.id, t.title, e.name, t.status, t.deadline]. *)
Record task_row : Set := mk_task_row {
  tr_id : Z;
  tr_title : string;
  tr_name : option string;
  tr_status : string;
  tr_deadline : option string
}.

Definition task_row_of (t : task) (name : option string) : task_row :=
  mk_task_row (task_id t) (task_title t) name (task_status t)
              (task_deadline t).

(** The employees a task's [assignee_id] is equal to ([NULL] equals
    nothing). *)
Definition assignees (es : list employee) (t : task) : list employee :=
  match task_assignee_id t with
  | None => []
  | Some a => filter (fun e => emp_id e =? a) es
  end.

(** [tasks t LEFT JOIN employees e ON t.assignee_id = e.id]: a task with
    no match is kept, with NULL for the employee's columns. *)
Definition left_join (ts : list task) (es : list employee) : list task_row :=
  flat_map
    (fun t =>
       match assignees es t with
       | [] => [task_row_of t None]
       | ms => map (fun e => task_row_of t (Some (emp_name e))) ms
       end) ts.

(** Truth value of an optional Python [str]: [None] and [""] are false. *)
Definition truthy_str (o : option string) : bool :=
  match o with
  | None => false
  | Some s => negb (String.eqb s "")
  end.

(** [x or default]. *)
Definition or_else (o : option string) (default : string) : string :=
  match o with
  | Some s => if String.eqb s "" then default else s
  | None => default
  end.

(** [WHERE t.status=?], added only when [filter_status] is true as a
    Python value. *)
Definition status_filter (filter_status : option string) (r : task_row)
  : bool :=
  match filter_status with
  | Some s => if truthy_str filter_status then String.eqb (tr_status r) s
              else true
  | None => true
  end.

Definition select_tasks (filter_status : option string) (d : database)
  : list task_row :=
  filter (status_filter filter_status)
         (left_join (rows (tasks d)) (rows (employees d))).

(** The line printed for a task, given the text of its five columns. *)
Definition task_line_of (id : Z) (title who status due : string) : string :=
  "#" ++ rjust 3 (str_of_int id) ++ " | " ++ ljust 25 title
    ++ " | " ++ ljust 15 who ++ " | " ++ ljust 12 status ++ " | " ++ due.

Definition task_line (r : task_row) : string :=
  task_line_of (tr_id r) (tr_title r) (or_else (tr_name r) "unassigned")
               (tr_status r) (or_else (tr_deadline r) "-").

Definition list_tasks (filter_status : option string) (d : database)
  : list string :=
  map task_line (select_tasks filter_status d).

(** The stored row of a task id, if any. *)
Definition find_task (id : Z) (d : database) : option task :=
  find (fun t => task_id t =? id) (rows (tasks d)).

(** [SET status=?, updated=?] on one row. *)
Definition set_status (status stamp : string) (t : task) : task :=
  mk_task (task_id t) (task_title t) (task_description t)
          (task_assignee_id t) status (task_deadline t) (task_created t)
          stamp.

(** [UPDATE tasks SET status=?, updated=? WHERE id=?].  The CHECK on
    [status] is evaluated on each row the statement changes; when it
    fails the statement is undone and [IntegrityError] is raised. *)
Definition update_task_status (now : datetime) (id : Z) (status : string)
    (d : database) : result database :=
  let stamp := strftime_DATE_FMT now in
  i <- bind_int id ;;
  let tb := tasks d in
  let hit := fun t => task_id t =? i in
  if (existsb hit (rows tb) && negb (status_check status))%bool
  then Raise IntegrityError
  else Ok (mk_database (employees d)
             (mk_table
                (map (fun t => if hit t then set_status status stamp t else t)
                     (rows tb))
                (seq tb))
             (shifts d)).

(* ================================================================== *)
(** ** CSV export *)

(** A value as the driver hands it to Python. *)
Inductive value : Set :=
| Null
| Integer (z : Z)
| Text (s : string).

Definition opt_text (o : option string) : value :=
  match o with Some s => Text s | None => Null end.

Definition opt_integer (o : option Z) : value :=
  match o with Some z => Integer z | None => Null end.

Definition employee_values (e : employee) : list value :=
  [Integer (emp_id e); Text (emp_name e); Text (emp_role e);
   Integer (emp_active e)].

Definition task_values (t : task) : list value :=
  [Integer (task_id t); Text (task_title t); opt_text (task_description t);
   opt_integer (task_assignee_id t); Text (task_status t);
   opt_text (task_deadline t); Text (task_created t); Text (task_updated t)].

Definition shift_values (s : shift) : list value :=
  [Integer (shift_id s); opt_integer (shift_employee_id s);
   Text (shift_start s); Text (shift_end s)].

(** Column names, as [cur.description] gives them for [SELECT *]. *)
Definition employees_columns : list string := ["id"; "name"; "role"; "active"].
Definition tasks_columns : list string :=
  ["id"; "title"; "description"; "assignee_id"; "status"; "deadline";
   "created"; "updated"].
Definition shifts_columns : list string :=
  ["id"; "employee_id"; "start"; "end"].

(** The text [csv.writer] makes of a field: [None] is empty, a number is
    its [str]. *)
Definition field_text (v : value) : string :=
  match v with
  | Null => ""
  | Integer z => str_of_int z
  | Text s => s
  end.

Fixpoint string_exists (p : ascii -> bool) (s : string) : bool :=
  match s with
  | EmptyString => false
  | String c s' => (p c || string_exists p s')%bool
  end.

(** QUOTE_MINIMAL of the excel dialect: a field is quoted when it holds
    the delimiter, the quote character or a character of the line
    terminator. *)
Definition special (c : ascii) : bool :=
  (Ascii.eqb c comma || Ascii.eqb c dquote || Ascii.eqb c CR
   || Ascii.eqb c LF)%bool.

(** [doublequote]: a quote character inside a field is written twice. *)
Fixpoint double_quotes (s : string) : string :=
  match s with
  | EmptyString => EmptyString
  | String c s' =>
      if Ascii.eqb c dquote
      then String dquote (String dquote (double_quotes s'))
      else String c (double_quotes s')
  end.

Definition render_field (v : value) : string :=
  let s := field_text v in
  if string_exists special s
  then String dquote (double_quotes s ++ String dquote EmptyString)
  else s.

Fixpoint join (sep : string) (l : list string) : string :=
  match l with
  | [] => EmptyString
  | [s] => s
  | s :: l' => s ++ sep ++ join sep l'
  end.

(** The record [writerow] makes, without its terminator.  A record of
    one empty field is written as two quote characters. *)
Definition record_text (fields : list value) : string :=
  let r := join (String comma EmptyString) (map render_field fields) in
  match fields with
  | [] => r
  | _ => if String.eqb r "" then String dquote (String dquote EmptyString)
         else r
  end.

Definition writerow (fields : list value) : string :=
  record_text fields ++ CRLF.

Fixpoint writerows (records : list (list value)) : string :=
  match records with
  | [] => EmptyString
  | r :: records' => writerow r ++ writerows records'
  end.

(** The file written for one table: [writerow(cols)] and then
    [writerows(rows)]. *)
Definition csv_file (cols : list string) (records : list (list value))
  : string :=
  writerow (map Text cols) ++ writerows records.

Definition outdir (now : datetime) : string :=
  "export_" ++ strftime_stamp now.

(** What [export_csv] leaves behind: the files it wrote, as pairs of
    path and content in the order written, and the line it printed. *)
Definition export_csv (now : datetime) (d : database)
  : list (string * string) * list string :=
  let dir := outdir now in
  ([ (dir ++ "/employees.csv",
      csv_file employees_columns (map employee_values (rows (employees d))));
     (dir ++ "/tasks.csv",
      csv_file tasks_columns (map task_values (rows (tasks d))));
     (dir ++ "/shifts.csv",
      csv_file shifts_columns (map shift_values (rows (shifts d)))) ],
   ["Exported to " ++ dir ++ "/"]).

(* ================================================================== *)
(** ** The command line *)

(** A command line after [argparse] has split it into the sub-command
    and its arguments, converted the [type=int] ones and filled in the
    defaults; the [choices] have not been looked at yet. *)
Inductive command : Set :=
| cmd_add_employee (name role : string)
| cmd_list_employees (all : bool)
| cmd_add_task (title desc : string) (assignee : option Z)
               (deadline : option string)
| cmd_list_tasks (status : option string)
| cmd_update_task (id : Z) (status : string)
| cmd_export.

(** The [choices] lists of [parse_args], each written out where the
    source writes it. *)
Definition role_choices : list string := ["staff"; "manager"].
Definition list_tasks_status_choices : list string :=
  ["todo"; "in" ++ nb_hyphen ++ "progress"; "done"].
Definition update_task_status_choices : list string :=
  ["todo"; "in" ++ nb_hyphen ++ "progress"; "done"].

(** [parse_args]: [None] is the parser's own exit (usage message on the
    standard error, status 2) for a value outside its [choices]. *)
Definition parse_args (c : command) : option command :=
  match c with
  | cmd_add_employee _ role =>
      if str_in role role_choices then Some c else None
  | cmd_list_tasks (Some s) =>
      if str_in s list_tasks_status_choices then Some c else None
  | cmd_update_task _ s =>
      if str_in s update_task_status_choices then Some c else None
  | _ => Some c
  end.

Inductive failure : Set :=
| UsageError                  (* argparse: exit status 2 *)
| Uncaught (e : exception).   (* traceback: exit status 1 *)

(** One run of [main]: the database it leaves, the lines printed on the
    standard output, the files written, and how it ended. *)
Record outcome : Set := mk_outcome {
  out_db : database;
  out_stdout : list string;
  out_files : list (string * string);
  out_failure : option failure
}.

Definition exit_status (o : outcome) : Z :=
  match out_failure o with
  | None => 0
  | Some (Uncaught _) => 1
  | Some UsageError => 2
  end.

(** A mutating operation run from [main]: on an exception the
    connection rolls back and the database stays as it was. *)
Definition run_update (d : database) (r : result database) : outcome :=
  match r with
  | Ok d' => mk_outcome d' [] [] None
  | Raise e => mk_outcome d [] [] (Some (Uncaught e))
  end.

Definition main (now : datetime) (c : command) (s : store) : outcome :=
  let d := init_db s in
  match parse_args c with
  | None => mk_outcome d [] [] (Some UsageError)
  | Some (cmd_add_employee name role) => run_update d (add_employee name role d)
  | Some (cmd_list_employees all) =>
      mk_outcome d (list_employees (negb all) d) [] None
  | Some (cmd_add_task title desc assignee deadline) =>
      run_update d (add_task now title (Some desc) assignee deadline d)
  | Some (cmd_list_tasks status) => mk_outcome d (list_tasks status d) [] None
  | Some (cmd_update_task id status) =>
      run_update d (update_task_status now id status d)
  | Some cmd_export =>
      let (files, printed) := export_csv now d in
      mk_outcome d printed files None
  end.

(* ================================================================== *)
(** ** Reading a CSV file back into records *)

(** The records of a CSV text as a reader splits them: a line break
    outside quotes ends a record, a quote character switches between
    inside and outside.  (A doubled quote inside a quoted field switches
    twice.)  This is the notion of row used for the export files; it is
    not part of the program. *)
Fixpoint csv_records (inq : bool) (cur : string) (s : string) : list string :=
  match s with
  | EmptyString => if String.eqb cur "" then [] else [cur]
  | String c s' =>
      if Ascii.eqb c dquote then
        csv_records (negb inq) (cur ++ String c EmptyString) s'
      else if (negb inq && Ascii.eqb c CR)%bool then
        match s' with
        | String c' s'' =>
            if Ascii.eqb c' LF then cur :: csv_records false "" s''
            else cur :: csv_records false "" s'
        | EmptyString => [cur]
        end
      else if (negb inq && Ascii.eqb c LF)%bool then
        cur :: csv_records false "" s'
      else csv_records inq (cur ++ String c EmptyString) s'
  end.

Definition csv_rows (content : string) : list string :=
  csv_records false "" content.

(** Physical lines: the number of line feeds in a text. *)
Fixpoint count_char (a : ascii) (s : string) : nat :=
  match s with
  | EmptyString => O
  | String c s' => ((if Ascii.eqb c a then 1 else 0) + count_char a s')%nat
  end.

(** Where a reader stands after a text: inside or outside quotes. *)
Fixpoint quote_state (inq : bool) (s : string) : bool :=
  match s with
  | EmptyString => inq
  | String c s' => quote_state (if Ascii.eqb c dquote then negb inq else inq) s'
  end.

(** No line break is met outside quotes in the text. *)
Fixpoint no_break (inq : bool) (s : string) : bool :=
  match s with
  | EmptyString => true
  | String c s' =>
      if Ascii.eqb c dquote then no_break (negb inq) s'
      else if (negb inq && (Ascii.eqb c CR || Ascii.eqb c LF))%bool then false
      else no_break inq s'
  end.

(** A text that a reader starting outside quotes goes through without
    ending a record, and leaves outside quotes. *)
Definition balanced (s : string) : Prop :=
  no_break false s = true /\ quote_state false s = false.

(** The line feeds inside the fields of a record. *)
Definition record_breaks (fields : list value) : nat :=
  list_sum (map (fun v => count_char LF (field_text v)) fields).

(* ================================================================== *)
(** ** Predicates used to state the properties *)

(** What a status update may change in a row: nothing in a row of
    another id, at most [status] and [updated] in a row of that id. *)
Definition row_frame (id : Z) (t t' : task) : Prop :=
  task_id t' = task_id t /\
  task_title t' = task_title t /\
  task_description t' = task_description t /\
  task_assignee_id t' = task_assignee_id t /\
  task_deadline t' = task_deadline t /\
  task_created t' = task_created t /\
  (task_id t <> id -> t' = t).

(** Sample data: one manager, one task assigned to that manager, and
    two clock readings of the same night. *)
Definition alice : employee := mk_employee 1 "Alice" "manager" 1.

Definition report : task :=
  mk_task 1 "Write report" (Some "") (Some 1) "todo" None
          "2024-11-03 01:59" "2024-11-03 01:59".

Definition sample_db : database :=
  mk_database (mk_table [alice] 1) (mk_table [report] 1) empty_table.

Definition clock_0159 : datetime := mk_datetime 2024 11 3 1 59.
Definition clock_0100 : datetime := mk_datetime 2024 11 3 1 0.


(** A database whose only employee has the empty name, with the sample
    task assigned to that employee. *)
Definition nameless : employee := mk_employee 1 "" "staff" 1.

Definition nameless_db : database :=
  mk_database (mk_table [nameless] 1) (mk_table [report] 1) empty_table.

(** A table that has a key left to give: every key in it and its
    counter are below the largest key there is. *)
Definition has_key_left {R : Set} (key : R -> Z) (tb : table R) : Prop :=
  Forall (fun r => key r < MAX_ROWID) (rows tb) /\ seq tb < MAX_ROWID.

(** A database whose employees table has used the last key. *)
Definition full_db : database :=
  mk_database (mk_table [mk_employee MAX_ROWID "Zoe" "staff" 1] MAX_ROWID)
              empty_table empty_table.

(** An optional id the driver can bind. *)
Definition bindable (o : option Z) : Prop :=
  match o with
  | Some z => sqlite_int64 z = true
  | None => True
  end.

(** Lexicographic combination of two comparisons. *)
Definition lex (c1 c2 : comparison) : comparison :=
  match c1 with Eq => c2 | _ => c1 end.

(** Clock readings in the order of the calendar. *)
Definition datetime_compare (a b : datetime) : comparison :=
  lex (year a ?= year b) (lex (month a ?= month b) (lex (day a ?= day b)
    (lex (hour a ?= hour b) (minute a ?= minute b)))).

Definition datetime_leb (a b : datetime) : bool :=
  match datetime_compare a b with Gt => false | _ => true end.

(** Two numbers printed on [w] digits compare as texts the way they
    compare as numbers. *)
Definition pair_ok (w : nat) (x y : Z) : bool :=
  match String.compare (zfill w (str_of_int x)) (zfill w (str_of_int y)),
        (x ?= y) with
  | Eq, Eq | Lt, Lt | Gt, Gt =>
      Nat.eqb (String.length (zfill w (str_of_int x))) w
  | _, _ => false
  end.

(** Four digits are the two of the hundreds and the two of the rest. *)
Definition year_split_ok (y : Z) : bool :=
  String.eqb (zfill 4 (str_of_int y))
             (zfill 2 (str_of_int (y / 100))
                ++ zfill 2 (str_of_int (y mod 100))).

(** A year of four digits is written the same with and without
    padding. *)
Definition year_plain_ok (y : Z) : bool :=
  (y <? 1000) || String.eqb (zfill 4 (str_of_int y)) (str_of_int y).

(** [zfill w (str z)] is [w] digits. *)
Definition digits_ok (w : nat) (z : Z) : bool :=
  shape_ok (repeat_char "9"%char w) (zfill w (str_of_int z)).

(* ================================================================== *)
(** ** Further predicates: what the schema promises, what a reader reads *)

(** PRIMARY KEY AUTOINCREMENT on a table: no key twice, and no key
    above the table's entry in [sqlite_sequence]. *)
Definition keys_ok {R : Set} (key : R -> Z) (tb : table R) : Prop :=
  NoDup (map key (rows tb)) /\ Forall (fun r => key r <= seq tb) (rows tb).

(** The constraints the schema of [init_db] declares and SQLite
    enforces: the primary keys and the two CHECKs. *)
Definition schema_ok (d : database) : Prop :=
  keys_ok emp_id (employees d) /\
  keys_ok task_id (tasks d) /\
  keys_ok shift_id (shifts d) /\
  Forall (fun e => role_check (emp_role e) = true) (rows (employees d)) /\
  Forall (fun t => status_check (task_status t) = true) (rows (tasks d)).

(** No employee has been deactivated. *)
Definition all_active (d : database) : Prop :=
  Forall (fun e => emp_active e = 1) (rows (employees d)).

(** The commands that only read the database. *)
Definition read_only (c : command) : bool :=
  match c with
  | cmd_list_employees _ | cmd_list_tasks _ | cmd_export => true
  | _ => false
  end.

(** The name the join finds for a task when employee ids are unique:
    that of the first employee with the task's assignee id. *)
Definition assignee_name (es : list employee) (t : task) : option string :=
  match task_assignee_id t with
  | None => None
  | Some a => option_map emp_name (find (fun e => emp_id e =? a) es)
  end.

(** The fields of one CSV record as a reader of the excel dialect
    parses them (the record already split off at its line break): a field
    that starts with a quote runs to the closing quote, two quotes inside
    it stand for one; any other field runs to the next comma.  An empty
    record has no field. *)
Inductive reader_state : Set :=
| StartRecord
| StartField
| InField
| InQuotedField
| QuoteInQuotedField.

Fixpoint csv_fields_from (st : reader_state) (cur : string) (s : string)
  : list string :=
  match s with
  | EmptyString =>
      match st with
      | StartRecord => []
      | _ => [cur]
      end
  | String c s' =>
      match st with
      | StartRecord | StartField =>
          if Ascii.eqb c dquote then csv_fields_from InQuotedField "" s'
          else if Ascii.eqb c comma then
            EmptyString :: csv_fields_from StartField "" s'
          else csv_fields_from InField (String c EmptyString) s'
      | InField =>
          if Ascii.eqb c comma then cur :: csv_fields_from StartField "" s'
          else csv_fields_from InField (cur ++ String c EmptyString) s'
      | InQuotedField =>
          if Ascii.eqb c dquote then csv_fields_from QuoteInQuotedField cur s'
          else csv_fields_from InQuotedField (cur ++ String c EmptyString) s'
      | QuoteInQuotedField =>
          if Ascii.eqb c dquote then
            csv_fields_from InQuotedField (cur ++ String dquote EmptyString) s'
          else if Ascii.eqb c comma then
            cur :: csv_fields_from StartField "" s'
          else csv_fields_from InField (cur ++ String c EmptyString) s'
      end
  end.

Definition csv_fields (record : string) : list string :=
  csv_fields_from StartRecord "" record.

(** A CSV file read back: its records, each split into fields. *)
Definition csv_read (content : string) : list (list string) :=
  map csv_fields (csv_rows content).

(** [str(n)] has at most [w] characters. *)
Definition short_int (w : nat) (z : Z) : bool :=
  Nat.leb (py_len (str_of_int z)) w.

(* ================================================================== *)
(** * Properties *)

(** ** Schema initialisation *)

Section Schema.

Lemma create_if_not_exists_some (R : Set) (tb : table R) :
  create_if_not_exists (Some tb) = tb.
Proof. reflexivity. Qed.

Lemma init_db_store_of (d : database) : init_db (store_of d) = d.
Proof. destruct d; reflexivity. Qed.

(** C8: initialising the schema is idempotent.  On a file that already
    holds the three tables it changes nothing; run twice it gives what one
    run gives; a table that is present keeps its rows and its key counter
    whatever else is missing; on an empty file it leaves exactly three
    empty tables.  [init_db] is a total function: it raises nothing. *)
Theorem init_db_idempotent :
  (forall d : database, init_db (store_of d) = d) /\
  (forall s : store, init_db (store_of (init_db s)) = init_db s) /\
  (forall (s : store) (e : table employee) (t : table task) (h : table shift),
      (st_employees s = Some e -> employees (init_db s) = e) /\
      (st_tasks s = Some t -> tasks (init_db s) = t) /\
      (st_shifts s = Some h -> shifts (init_db s) = h)) /\
  init_db empty_store = mk_database empty_table empty_table empty_table /\
  store_of (init_db empty_store) =
    mk_store (Some (mk_table [] 0)) (Some (mk_table [] 0))
             (Some (mk_table [] 0)).
Proof.
  split; [exact init_db_store_of|].
  split; [intros s; apply init_db_store_of|].
  split; [|split; reflexivity].
  intros s e t h; unfold init_db; simpl.
  repeat split; intros ->; reflexivity.
Qed.

End Schema.

(** ** The clock *)

Section Clock.

Lemma in_zrange (n : nat) (z : Z) :
  0 <= z < Z.of_nat n -> In z (map Z.of_nat (List.seq 0 n)).
Proof.
  intros H; apply in_map_iff; exists (Z.to_nat z); split; [lia|].
  apply in_seq; lia.
Qed.

Lemma forallb_below (P : Z -> bool) (n : nat) :
  forallb P (map Z.of_nat (List.seq 0 n)) = true ->
  forall z, 0 <= z < Z.of_nat n -> P z = true.
Proof.
  intros H z Hz; rewrite forallb_forall in H; apply H, in_zrange, Hz.
Qed.

Lemma forallb_below2 (P : Z -> Z -> bool) (n : nat) :
  forallb (fun x => forallb (P x) (map Z.of_nat (List.seq 0 n)))
          (map Z.of_nat (List.seq 0 n)) = true ->
  forall x y, 0 <= x < Z.of_nat n -> 0 <= y < Z.of_nat n -> P x y = true.
Proof.
  intros H x y Hx Hy.
  apply (forallb_below (P x) n); [|exact Hy].
  apply (forallb_below _ n H x Hx).
Qed.

Lemma two_digits_compare (x y : Z) :
  0 <= x <= 99 -> 0 <= y <= 99 -> pair_ok 2 x y = true.
Proof.
  intros Hx Hy; apply (forallb_below2 (pair_ok 2) 100); [|lia|lia].
  vm_compute; reflexivity.
Qed.

Lemma two_digits_length (x : Z) :
  0 <= x <= 99 -> String.length (zfill 2 (str_of_int x)) = 2%nat.
Proof.
  intros Hx; pose proof (two_digits_compare x x Hx Hx) as H.
  unfold pair_ok in H.
  destruct (String.compare _ _), (x ?= x); try discriminate H;
    apply Nat.eqb_eq; exact H.
Qed.

Lemma two_digits_order (x y : Z) :
  0 <= x <= 99 -> 0 <= y <= 99 ->
  String.compare (zfill 2 (str_of_int x)) (zfill 2 (str_of_int y)) = (x ?= y).
Proof.
  intros Hx Hy; pose proof (two_digits_compare x y Hx Hy) as H.
  unfold pair_ok in H.
  destruct (String.compare _ _), (x ?= y); try discriminate H; reflexivity.
Qed.

Lemma year_split (y : Z) :
  0 <= y <= 9999 ->
  zfill 4 (str_of_int y)
  = zfill 2 (str_of_int (y / 100)) ++ zfill 2 (str_of_int (y mod 100)).
Proof.
  intros H; apply String.eqb_eq.
  apply (forallb_below year_split_ok (Z.to_nat 10000)); [|lia].
  vm_compute; reflexivity.
Qed.

Lemma compare_app (s1 s2 r1 r2 : string) :
  String.length s1 = String.length s2 ->
  String.compare (s1 ++ r1) (s2 ++ r2)
  = lex (String.compare s1 s2) (String.compare r1 r2).
Proof.
  revert s2; induction s1 as [|c s1 IH]; intros [|c' s2] H; simpl in *;
    try discriminate H; [reflexivity|].
  destruct (Ascii.compare c c'); try reflexivity.
  apply IH; congruence.
Qed.

Lemma compare_split (x y : Z) :
  (x ?= y) = lex (x / 100 ?= y / 100) (x mod 100 ?= y mod 100).
Proof.
  pose proof (Z.div_mod x 100 ltac:(lia)) as Hx.
  pose proof (Z.div_mod y 100 ltac:(lia)) as Hy.
  pose proof (Z.mod_pos_bound x 100 ltac:(lia)).
  pose proof (Z.mod_pos_bound y 100 ltac:(lia)).
  unfold lex.
  destruct (Z.compare_spec (x / 100) (y / 100));
    destruct (Z.compare_spec (x mod 100) (y mod 100));
    destruct (Z.compare_spec x y); try reflexivity; lia.
Qed.

Lemma compare_sep (c : ascii) (r1 r2 : string) :
  String.compare (String c EmptyString ++ r1) (String c EmptyString ++ r2)
  = String.compare r1 r2.
Proof.
  simpl; unfold Ascii.compare; rewrite N.compare_refl; reflexivity.
Qed.

Lemma hundreds (x : Z) :
  0 <= x <= 9999 -> 0 <= x / 100 <= 99 /\ 0 <= x mod 100 <= 99.
Proof.
  intros H.
  pose proof (Z.div_mod x 100 ltac:(lia)).
  pose proof (Z.mod_pos_bound x 100 ltac:(lia)).
  lia.
Qed.

Lemma four_digits_order (x y : Z) :
  0 <= x <= 9999 -> 0 <= y <= 9999 ->
  String.compare (zfill 4 (str_of_int x)) (zfill 4 (str_of_int y)) = (x ?= y).
Proof.
  intros Hx Hy.
  pose proof (hundreds x Hx) as [? ?]; pose proof (hundreds y Hy) as [? ?].
  rewrite (year_split x Hx), (year_split y Hy).
  rewrite compare_app by (rewrite !two_digits_length by lia; reflexivity).
  rewrite !two_digits_order by lia.
  symmetry; apply compare_split.
Qed.

Lemma length_app_string (a b : string) :
  String.length (a ++ b) = (String.length a + String.length b)%nat.
Proof. induction a; simpl; congruence. Qed.

Lemma four_digits_length (x : Z) :
  0 <= x <= 9999 -> String.length (zfill 4 (str_of_int x)) = 4%nat.
Proof.
  intros Hx.
  pose proof (hundreds x Hx) as [? ?].
  rewrite (year_split x Hx), length_app_string, !two_digits_length by lia.
  reflexivity.
Qed.

Lemma year_unpadded (y : Z) :
  1000 <= y <= 9999 -> zfill 4 (str_of_int y) = str_of_int y.
Proof.
  intros H.
  assert (Hok : year_plain_ok y = true).
  { apply (forallb_below year_plain_ok (Z.to_nat 10000)); [|lia].
    vm_compute; reflexivity. }
  unfold year_plain_ok in Hok; apply orb_true_iff in Hok as [Hlt|Heq].
  - apply Z.ltb_lt in Hlt; lia.
  - apply String.eqb_eq; exact Heq.
Qed.

(** The stamps of two clock readings are ordered as texts the way the
    readings are ordered in the calendar. *)
Lemma strftime_DATE_FMT_order (a b : datetime) :
  datetime_ok a -> datetime_ok b ->
  String.compare (strftime_DATE_FMT a) (strftime_DATE_FMT b)
  = datetime_compare a b.
Proof.
  intros (Ha1 & Ha2 & Ha3 & Ha4 & Ha5) (Hb1 & Hb2 & Hb3 & Hb4 & Hb5).
  unfold strftime_DATE_FMT, datetime_compare.
  rewrite <- (year_unpadded (year a)), <- (year_unpadded (year b)) by lia.
  rewrite compare_app by (rewrite !four_digits_length by lia; reflexivity).
  rewrite four_digits_order by lia; f_equal.
  rewrite compare_sep.
  rewrite compare_app by (rewrite !two_digits_length by lia; reflexivity).
  rewrite two_digits_order by lia; f_equal.
  rewrite compare_sep.
  rewrite compare_app by (rewrite !two_digits_length by lia; reflexivity).
  rewrite two_digits_order by lia; f_equal.
  rewrite compare_sep.
  rewrite compare_app by (rewrite !two_digits_length by lia; reflexivity).
  rewrite two_digits_order by lia; f_equal.
  rewrite compare_sep.
  apply two_digits_order; lia.
Qed.

Lemma strftime_DATE_FMT_leb (a b : datetime) :
  datetime_ok a -> datetime_ok b ->
  String.leb (strftime_DATE_FMT a) (strftime_DATE_FMT b) = datetime_leb a b.
Proof.
  intros Ha Hb; unfold String.leb, datetime_leb.
  rewrite (strftime_DATE_FMT_order a b Ha Hb); reflexivity.
Qed.

End Clock.

(** ** Status updates *)

Section Update.

Variable now : datetime.

Lemma bind_int_ok (z : Z) : sqlite_int64 z = true -> bind_int z = Ok z.
Proof. unfold bind_int; intros ->; reflexivity. Qed.

Lemma bind_int_overflow (z : Z) :
  sqlite_int64 z = false -> bind_int z = Raise OverflowError.
Proof. unfold bind_int; intros ->; reflexivity. Qed.

(** An id the driver cannot bind never reaches the table. *)
Lemma update_task_status_overflow (id : Z) (status : string) (d : database) :
  sqlite_int64 id = false ->
  update_task_status now id status d = Raise OverflowError.
Proof.
  intros H; unfold update_task_status; rewrite (bind_int_overflow _ H).
  reflexivity.
Qed.

Lemma existsb_no_hit (id : Z) (l : list task) :
  (forall t, In t l -> task_id t <> id) ->
  existsb (fun t => task_id t =? id) l = false.
Proof.
  intros H; induction l as [|t l IH]; simpl; [reflexivity|].
  rewrite IH by (intros u Hu; apply H; right; exact Hu).
  assert (task_id t <> id) by (apply H; left; reflexivity).
  apply Z.eqb_neq in H0; rewrite H0; reflexivity.
Qed.

Lemma map_no_hit (id : Z) (f : task -> task) (l : list task) :
  (forall t, In t l -> task_id t <> id) ->
  map (fun t => if task_id t =? id then f t else t) l = l.
Proof.
  intros H; induction l as [|t l IH]; simpl; [reflexivity|].
  rewrite IH by (intros u Hu; apply H; right; exact Hu).
  assert (Hne : task_id t <> id) by (apply H; left; reflexivity).
  apply Z.eqb_neq in Hne; rewrite Hne; reflexivity.
Qed.

Lemma filter_no_hit (id : Z) (l : list task) :
  (forall t, In t l -> task_id t <> id) ->
  filter (fun t => task_id t =? id) l = [].
Proof.
  intros H; induction l as [|t l IH]; simpl; [reflexivity|].
  assert (Hne : task_id t <> id) by (apply H; left; reflexivity).
  apply Z.eqb_neq in Hne; rewrite Hne.
  apply IH; intros u Hu; apply H; right; exact Hu.
Qed.

(** C1 (as amended): updating the status of a task id that is not in
    the table and that lies within the signed 64-bit range of a SQLite
    INTEGER does not fail and changes nothing: no row matches, the
    database after the call is the database before it; run as the
    [update-task] command with a status the parser accepts, nothing is
    printed, no file is written and the exit status is 0. *)
Theorem update_task_status_missing_id (id : Z) (status : string)
    (d : database) :
  sqlite_int64 id = true ->
  (forall t, In t (rows (tasks d)) -> task_id t <> id) ->
  filter (fun t => task_id t =? id) (rows (tasks d)) = [] /\
  update_task_status now id status d = Ok d /\
  (str_in status update_task_status_choices = true ->
   main now (cmd_update_task id status) (store_of d) = mk_outcome d [] [] None
   /\ exit_status (main now (cmd_update_task id status) (store_of d)) = 0).
Proof.
  intros Hid Hmiss.
  assert (Hup : update_task_status now id status d = Ok d).
  { unfold update_task_status; rewrite (bind_int_ok _ Hid); simpl.
    rewrite (existsb_no_hit _ _ Hmiss); simpl.
    rewrite (map_no_hit _ _ _ Hmiss).
    destruct d as [e [tr ts] s]; reflexivity. }
  split; [apply filter_no_hit; exact Hmiss|].
  split; [exact Hup|].
  intros Hch.
  assert (Hmain : main now (cmd_update_task id status) (store_of d)
                  = mk_outcome d [] [] None).
  { unfold main, parse_args; rewrite Hch, init_db_store_of, Hup.
    reflexivity. }
  split; [exact Hmain|rewrite Hmain; reflexivity].
Qed.

(** The rows of the task table after a status update, whatever its
    result, against the rows before it. *)
Lemma set_status_frame (status stamp : string) (t : task) :
  task_id (set_status status stamp t) = task_id t /\
  task_title (set_status status stamp t) = task_title t /\
  task_description (set_status status stamp t) = task_description t /\
  task_assignee_id (set_status status stamp t) = task_assignee_id t /\
  task_deadline (set_status status stamp t) = task_deadline t /\
  task_created (set_status status stamp t) = task_created t.
Proof. repeat split. Qed.

Lemma row_frame_refl (id : Z) (t : task) : row_frame id t t.
Proof. repeat split. Qed.

Lemma Forall2_row_frame_refl (id : Z) (l : list task) :
  Forall2 (row_frame id) l l.
Proof. induction l; constructor; auto using row_frame_refl. Qed.

Lemma Forall2_row_frame_map (id : Z) (status stamp : string) (l : list task) :
  Forall2 (row_frame id) l
    (map (fun t => if task_id t =? id then set_status status stamp t else t) l).
Proof.
  induction l as [|t l IH]; simpl; constructor; [|exact IH].
  destruct (Z.eqb_spec (task_id t) id) as [E|N].
  - repeat split; intros C; contradiction.
  - apply row_frame_refl.
Qed.

(** C10: a status update touches nothing but the [status] and [updated]
    fields of the task rows with the given id.  For every database, id and
    status, and whether the call succeeds or raises, the database after the
    call has the same employees and shifts tables, the same key counter and
    number of task rows, and row by row the same task, except that a row of
    that id may differ in [status] and [updated]. *)
Theorem update_task_status_frame (id : Z) (status : string) (d : database) :
  let d' := out_db (run_update d (update_task_status now id status d)) in
  employees d' = employees d /\
  shifts d' = shifts d /\
  seq (tasks d') = seq (tasks d) /\
  List.length (rows (tasks d')) = List.length (rows (tasks d)) /\
  Forall2 (row_frame id) (rows (tasks d)) (rows (tasks d')).
Proof.
  unfold update_task_status, bind, bind_int.
  destruct (sqlite_int64 id); simpl;
    [|repeat split; apply Forall2_row_frame_refl].
  destruct (existsb _ _ && negb (status_check status))%bool; simpl.
  - repeat split; apply Forall2_row_frame_refl.
  - repeat split; [apply length_map|apply Forall2_row_frame_map].
Qed.

Lemma find_map_set_status (id : Z) (status stamp : string) (l : list task) :
  find (fun t => task_id t =? id)
       (map (fun t => if task_id t =? id then set_status status stamp t else t)
            l)
  = option_map (set_status status stamp) (find (fun t => task_id t =? id) l).
Proof.
  induction l as [|t l IH]; simpl; [reflexivity|].
  destruct (Z.eqb_spec (task_id t) id) as [E|N]; simpl.
  - apply Z.eqb_eq in E; rewrite E; reflexivity.
  - apply Z.eqb_neq in N; rewrite N; exact IH.
Qed.

Lemma find_some_existsb (id : Z) (l : list task) (t : task) :
  find (fun t => task_id t =? id) l = Some t ->
  existsb (fun t => task_id t =? id) l = true.
Proof.
  intros H; apply find_some in H; apply existsb_exists.
  exists t; exact H.
Qed.

Lemma in_map_set_status (id : Z) (status stamp : string) (l : list task)
    (t' : task) :
  In t' (map (fun t => if task_id t =? id then set_status status stamp t
                       else t) l) ->
  task_id t' = id ->
  task_status t' = status /\ task_updated t' = stamp.
Proof.
  intros Hin Hid; apply in_map_iff in Hin as (t & <- & _).
  destruct (Z.eqb_spec (task_id t) id) as [E|N]; [split; reflexivity|].
  contradiction.
Qed.

(** C3 (as amended): for every task id in the table (an id being a
    SQLite INTEGER) and every status the schema's CHECK accepts, the
    task's current status included, the update succeeds, sets the status
    of that task to the given one and sets [updated] to the clock reading
    formatted as [YYYY-MM-DD HH:MM]; the other fields of the row stay.
    The new [updated] is at least the prior one exactly when the formatted
    clock reading is; when the prior one is the stamp of an earlier clock
    reading, that is exactly when the clock has not gone back since. *)
Theorem update_task_status_existing_id (id : Z) (s : string) (d : database)
    (t : task) :
  sqlite_int64 id = true ->
  find_task id d = Some t ->
  status_check s = true ->
  exists d' t',
    update_task_status now id s d = Ok d' /\
    find_task id d' = Some t' /\
    t' = set_status s (strftime_DATE_FMT now) t /\
    task_status t' = s /\
    task_updated t' = strftime_DATE_FMT now /\
    (forall u, In u (rows (tasks d')) -> task_id u = id ->
               task_status u = s /\ task_updated u = strftime_DATE_FMT now) /\
    String.leb (task_updated t) (task_updated t')
      = String.leb (task_updated t) (strftime_DATE_FMT now) /\
    (forall prev : datetime,
        datetime_ok prev -> datetime_ok now ->
        task_updated t = strftime_DATE_FMT prev ->
        String.leb (task_updated t) (task_updated t') = datetime_leb prev now).
Proof.
  intros Hid Hfind Hs.
  unfold update_task_status; rewrite (bind_int_ok _ Hid); simpl.
  rewrite Hs; simpl; rewrite andb_false_r.
  eexists; exists (set_status s (strftime_DATE_FMT now) t).
  split; [reflexivity|].
  split.
  { unfold find_task in *; simpl.
    rewrite find_map_set_status, Hfind; reflexivity. }
  split; [reflexivity|].
  split; [reflexivity|].
  split; [reflexivity|].
  split; [|split; [reflexivity|]].
  - intros u Hu Hidu; simpl in Hu.
    exact (in_map_set_status _ _ _ _ _ Hu Hidu).
  - intros prev Hprev Hnow ->; simpl.
    apply strftime_DATE_FMT_leb; assumption.
Qed.

End Update.

(** C1 (as stated) fails: the id of [update-task] is any integer the
    command line can write, and one outside the signed 64-bit range is not
    in the table, yet the driver cannot bind it: the call raises
    [OverflowError] and the command ends with exit status 1. *)
Lemma update_task_status_missing_id_overflow :
  ~ (forall (now : datetime) (id : Z) (status : string) (d : database),
        (forall t, In t (rows (tasks d)) -> task_id t <> id) ->
        update_task_status now id status d = Ok d /\
        (str_in status update_task_status_choices = true ->
         exit_status (main now (cmd_update_task id status) (store_of d)) = 0)).
Proof.
  intros H.
  assert (Hmiss : forall t, In t (rows (tasks sample_db)) ->
                            task_id t <> 2 ^ 63)
    by (intros t [<-|[]]; discriminate).
  destruct (H clock_0159 (2 ^ 63) "done" sample_db Hmiss) as [Hup _].
  vm_compute in Hup; discriminate Hup.
Qed.

(** C3 (as stated) fails: the program stores whatever the wall clock
    reads.  At 01:59 on the night the clocks go back the task is stamped
    ["2024-11-03 01:59"]; an update one minute later, at 01:00 local time,
    stamps it ["2024-11-03 01:00"], which is less. *)
Lemma update_task_status_updated_can_decrease :
  ~ (forall (now : datetime) (id : Z) (s : string) (d : database) (t : task),
        sqlite_int64 id = true ->
        find_task id d = Some t ->
        status_check s = true ->
        exists d' t',
          update_task_status now id s d = Ok d' /\
          find_task id d' = Some t' /\
          task_status t' = s /\
          String.leb (task_updated t) (task_updated t') = true).
Proof.
  intros H.
  destruct (H clock_0100 1 "done" sample_db report eq_refl eq_refl eq_refl)
    as (d' & t' & Hup & Hfind & _ & Hle).
  vm_compute in Hup; injection Hup as <-.
  vm_compute in Hfind; injection Hfind as <-.
  vm_compute in Hle; discriminate Hle.
Qed.

(** C2: the [update-task] command does not take [in-progress] spelled
    with an ASCII hyphen.  The parser's [choices] spell the value with
    U+2011, so the command line is refused with a usage error (exit status
    2) before any update runs, whatever the id and the database; and the
    schema's CHECK, which has the same spelling, refuses the value when
    [update_task_status] is called with it on an existing task. *)
Theorem update_task_ascii_in_progress_refused (now : datetime) (id : Z)
    (s : store) :
  str_in "in-progress" update_task_status_choices = false /\
  main now (cmd_update_task id "in-progress") s
    = mk_outcome (init_db s) [] [] (Some UsageError) /\
  exit_status (main now (cmd_update_task id "in-progress") s) = 2 /\
  status_check "in-progress" = false /\
  find_task 1 sample_db = Some report /\
  update_task_status now 1 "in-progress" sample_db = Raise IntegrityError /\
  update_task_status_choices
    = ["todo";
       String "i" (String "n" (String (ascii_of_nat 226)
         (String (ascii_of_nat 128) (String (ascii_of_nat 145) "progress"))));
       "done"].
Proof. repeat split. Qed.

(** ** Keys *)

Section Keys.

Lemma largest_key_spec (ids : list Z) (m : Z) :
  largest_key ids = Some m -> In m ids /\ Forall (fun i => i <= m) ids.
Proof.
  destruct ids as [|i l]; [discriminate|]; simpl; intros [= <-].
  induction l as [|j l [IHin IHall]]; simpl.
  - split; [left; reflexivity|repeat constructor; lia].
  - apply Forall_cons_iff in IHall as [Hi Hl].
    split.
    + destruct (Z.max_spec j (fold_right Z.max i l)) as [[_ ->]|[_ ->]].
      * destruct IHin as [E|Hin]; [left; exact E|right; right; exact Hin].
      * right; left; reflexivity.
    + constructor; [lia|constructor; [lia|]].
      eapply Forall_impl; [|exact Hl]; simpl; intros; lia.
Qed.

(** A key that is given is above the counter and above every key in
    the table, and is a key SQLite has. *)
Lemma next_id_ok (ids : list Z) (sq k : Z) :
  next_id ids sq = Ok k ->
  sq < k /\ Forall (fun i => i < k) ids /\ k <= MAX_ROWID /\
  k = match largest_key ids with
      | Some m => Z.max (m + 1) (sq + 1)
      | None => Z.max 1 (sq + 1)
      end.
Proof.
  assert (Hmax : 1 <= MAX_ROWID) by (unfold MAX_ROWID; lia).
  unfold next_id; destruct (largest_key ids) as [m|] eqn:E.
  - destruct (Z.leb_spec MAX_ROWID m); simpl; [discriminate|].
    destruct (Z.leb_spec MAX_ROWID sq); simpl; [discriminate|].
    intros [= <-]; destruct (largest_key_spec _ _ E) as [_ Hall].
    split; [lia|]. split; [|split; [lia|reflexivity]].
    eapply Forall_impl; [|exact Hall]; simpl; intros; lia.
  - destruct ids; [|discriminate].
    destruct (Z.leb_spec MAX_ROWID sq); [discriminate|].
    intros [= <-].
    split; [lia|]. split; [constructor|split; [lia|reflexivity]].
Qed.

(** A key is given exactly when the table has one left. *)
Lemma next_id_key_left (ids : list Z) (sq : Z) :
  Forall (fun i => i < MAX_ROWID) ids -> sq < MAX_ROWID ->
  exists k, next_id ids sq = Ok k.
Proof.
  intros Hall Hsq; unfold next_id.
  destruct (largest_key ids) as [m|] eqn:E.
  - destruct (largest_key_spec _ _ E) as [Hin _].
    rewrite Forall_forall in Hall; apply Hall in Hin.
    destruct (Z.leb_spec MAX_ROWID m); [lia|].
    destruct (Z.leb_spec MAX_ROWID sq); [lia|].
    eexists; reflexivity.
  - destruct (Z.leb_spec MAX_ROWID sq); [lia|].
    eexists; reflexivity.
Qed.


Lemma has_key_left_next_id (R : Set) (key : R -> Z) (tb : table R) :
  has_key_left key tb ->
  exists k, next_id (map key (rows tb)) (seq tb) = Ok k.
Proof.
  intros [Hall Hsq]; apply next_id_key_left; [|exact Hsq].
  apply Forall_forall; intros i Hi.
  apply in_map_iff in Hi as (r & <- & Hr).
  rewrite Forall_forall in Hall; apply Hall, Hr.
Qed.

End Keys.

(** ** Employees *)

Section Employees.

Lemma role_check_in (role : string) :
  In role role_values -> role_check role = true.
Proof.
  intros H; unfold role_check, str_in; apply existsb_exists.
  exists role; split; [exact H|apply String.eqb_refl].
Qed.

(** What [add_employee] returns when the table gives the key [k]. *)
Lemma add_employee_ok (name role : string) (d : database) (k : Z) :
  next_id (map emp_id (rows (employees d))) (seq (employees d)) = Ok k ->
  role_check role = true ->
  add_employee name role d
  = Ok (mk_database
          (mk_table (rows (employees d) ++ [mk_employee k name role 1]) k)
          (tasks d) (shifts d)).
Proof.
  intros Hk Hrole; unfold add_employee; rewrite Hk; simpl; rewrite Hrole.
  reflexivity.
Qed.

(** [add_employee] returns only when the table gives a key and the
    role passes the CHECK. *)
Lemma add_employee_inv (name role : string) (d d' : database) :
  add_employee name role d = Ok d' ->
  role_check role = true /\
  exists k,
    next_id (map emp_id (rows (employees d))) (seq (employees d)) = Ok k /\
    d' = mk_database
           (mk_table (rows (employees d) ++ [mk_employee k name role 1]) k)
           (tasks d) (shifts d).
Proof.
  unfold add_employee.
  destruct (next_id _ _) as [k|e] eqn:Ek; simpl; [|discriminate].
  destruct (role_check role); [|discriminate].
  intros [= <-]; split; [reflexivity|].
  exists k; split; reflexivity.
Qed.

(** C5 (as amended): for every name and every role among [staff] and
    [manager], on every database whose employees table has a key left,
    [add_employee] succeeds and the listing of all employees that follows
    has a row with that name, that role and the active flag 1, printed as
    a line that carries the name, the role and the label [active]. *)
Theorem add_employee_then_list (name role : string) (d : database) :
  In role role_values ->
  has_key_left emp_id (employees d) ->
  exists d' e,
    add_employee name role d = Ok d' /\
    In e (select_employees false d') /\
    emp_name e = name /\ emp_role e = role /\ emp_active e = 1 /\
    In (employee_line e) (list_employees false d') /\
    employee_line e
      = "#" ++ rjust 3 (str_of_int (emp_id e)) ++ " | " ++ ljust 20 name
          ++ " | " ++ ljust 8 role ++ " | " ++ "active".
Proof.
  intros Hrole Hleft.
  destruct (has_key_left_next_id _ _ _ Hleft) as [k Hk].
  rewrite (add_employee_ok _ _ _ _ Hk (role_check_in _ Hrole)).
  eexists; eexists; split; [reflexivity|].
  split; [unfold select_employees; simpl; apply in_or_app; right; left;
          reflexivity|].
  repeat split.
  unfold list_employees, select_employees; simpl.
  rewrite map_app; apply in_or_app; right; left; reflexivity.
Qed.

Lemma employee_line_active (e : employee) :
  emp_active e = 1 ->
  employee_line e
  = "#" ++ rjust 3 (str_of_int (emp_id e)) ++ " | " ++ ljust 20 (emp_name e)
      ++ " | " ++ ljust 8 (emp_role e) ++ " | " ++ "active".
Proof. intros H; unfold employee_line; rewrite H; reflexivity. Qed.

(** C6: on every database the listing of active employees holds only
    rows whose active flag is 1: no row whose flag is false as a Python
    value is selected, every selected row is a stored row, and every line
    printed carries the label [active]. *)
Theorem list_employees_active_only (d : database) :
  Forall (fun e => emp_active e = 1) (select_employees true d) /\
  existsb (fun e => negb (truthy_int (emp_active e)))
          (select_employees true d) = false /\
  incl (select_employees true d) (rows (employees d)) /\
  list_employees true d
  = map (fun e => "#" ++ rjust 3 (str_of_int (emp_id e)) ++ " | "
                    ++ ljust 20 (emp_name e) ++ " | " ++ ljust 8 (emp_role e)
                    ++ " | " ++ "active")
        (select_employees true d).
Proof.
  assert (Hall : Forall (fun e => emp_active e = 1) (select_employees true d)).
  { apply Forall_forall; intros e He; unfold select_employees in He.
    apply filter_In in He as [_ He]; apply Z.eqb_eq; exact He. }
  split; [exact Hall|].
  split.
  { destruct (existsb _ _) eqn:E; [|reflexivity].
    apply existsb_exists in E as (e & He & Hf).
    rewrite Forall_forall in Hall; apply Hall in He.
    unfold truthy_int in Hf; rewrite He in Hf; discriminate Hf. }
  split.
  { intros e He; unfold select_employees in He.
    apply filter_In in He as [He _]; exact He. }
  unfold list_employees; apply map_ext_in; intros e He.
  rewrite Forall_forall in Hall; apply employee_line_active, Hall, He.
Qed.

End Employees.

(** C5 (as stated) fails: on a database whose employees table has used
    the largest key there is, [add_employee] is refused (the database is
    full) and no row is added, whatever the name and the role. *)
Lemma add_employee_no_key_left :
  ~ (forall (name role : string) (d : database),
        In role role_values ->
        exists d' e,
          add_employee name role d = Ok d' /\
          In e (select_employees false d') /\
          emp_name e = name /\ emp_role e = role /\ emp_active e = 1).
Proof.
  intros H.
  destruct (H "Bob" "staff" full_db (or_introl eq_refl))
    as (d' & e & Hadd & _).
  vm_compute in Hadd; discriminate Hadd.
Qed.

(** ** Creating tasks *)

Section AddTask.

Lemma two_digits (z : Z) : 0 <= z <= 99 -> digits_ok 2 z = true.
Proof.
  intros H; apply (forallb_below (digits_ok 2) 100); [|lia].
  vm_compute; reflexivity.
Qed.

Lemma four_digits (z : Z) : 0 <= z <= 9999 -> digits_ok 4 z = true.
Proof.
  intros H; apply (forallb_below (digits_ok 4) (Z.to_nat 10000)); [|lia].
  vm_compute; reflexivity.
Qed.

Lemma shape_ok_app (p1 p2 s1 s2 : string) :
  shape_ok p1 s1 = true -> shape_ok p2 s2 = true ->
  shape_ok (p1 ++ p2) (s1 ++ s2) = true.
Proof.
  revert s1; induction p1 as [|p p1 IH]; intros [|c s1] H1 H2;
    simpl in *; try discriminate; [exact H2|].
  apply andb_true_iff in H1 as [Hc H1].
  rewrite Hc; simpl; apply IH; assumption.
Qed.


Lemma bind_opt_int_ok (o : option Z) : bindable o -> bind_opt_int o = Ok o.
Proof.
  destruct o as [z|]; simpl; [|reflexivity].
  intros H; rewrite (bind_int_ok _ H); reflexivity.
Qed.

Lemma bind_opt_int_inv (o o' : option Z) :
  bind_opt_int o = Ok o' -> o' = o /\ bindable o.
Proof.
  destruct o as [z|]; simpl; [|intros [= <-]; split; [reflexivity|exact I]].
  unfold bind_int, bindable; destruct (sqlite_int64 z); simpl;
    [|discriminate].
  intros [= <-]; split; reflexivity.
Qed.

(** What [add_task] returns when the table gives the key [k]. *)
Lemma add_task_ok (now : datetime) (title : string)
    (description : option string) (assignee_id : option Z)
    (deadline : option string) (d : database) (k : Z) :
  bindable assignee_id ->
  next_id (map task_id (rows (tasks d))) (seq (tasks d)) = Ok k ->
  add_task now title description assignee_id deadline d
  = Ok (mk_database (employees d)
          (mk_table
             (rows (tasks d)
                ++ [mk_task k title description assignee_id "todo" deadline
                            (strftime_DATE_FMT now) (strftime_DATE_FMT now)])
             k)
          (shifts d)).
Proof.
  intros Ha Hk; unfold add_task; rewrite (bind_opt_int_ok _ Ha); simpl.
  rewrite Hk; reflexivity.
Qed.

(** [add_task] returns only when the assignee id can be bound and the
    table gives a key. *)
Lemma add_task_inv (now : datetime) (title : string)
    (description : option string) (assignee_id : option Z)
    (deadline : option string) (d d' : database) :
  add_task now title description assignee_id deadline d = Ok d' ->
  bindable assignee_id /\
  exists k,
    next_id (map task_id (rows (tasks d))) (seq (tasks d)) = Ok k /\
    d' = mk_database (employees d)
           (mk_table
              (rows (tasks d)
                 ++ [mk_task k title description assignee_id "todo" deadline
                             (strftime_DATE_FMT now) (strftime_DATE_FMT now)])
              k)
           (shifts d).
Proof.
  unfold add_task.
  destruct (bind_opt_int assignee_id) as [a|e] eqn:Ea; simpl; [|discriminate].
  destruct (bind_opt_int_inv _ _ Ea) as [-> Hb].
  destruct (next_id _ _) as [k|e] eqn:Ek; simpl; [|discriminate].
  intros [= <-]; split; [exact Hb|].
  exists k; split; reflexivity.
Qed.


End AddTask.


(** ** Listing tasks *)

Section ListTasks.

Lemma status_filter_name (f : option string) (t : task)
    (n1 n2 : option string) :
  status_filter f (task_row_of t n1) = status_filter f (task_row_of t n2).
Proof. destruct f; reflexivity. Qed.

Lemma in_select_tasks (f : option string) (d : database) (t : task)
    (name : option string) :
  In t (rows (tasks d)) ->
  status_filter f (task_row_of t None) = true ->
  match assignees (rows (employees d)) t with
  | [] => name = None
  | ms => exists e, In e ms /\ name = Some (emp_name e)
  end ->
  In (task_row_of t name) (select_tasks f d).
Proof.
  intros Ht Hf Hname; unfold select_tasks; apply filter_In; split.
  - unfold left_join; apply in_flat_map; exists t; split; [exact Ht|].
    destruct (assignees (rows (employees d)) t) as [|m ms].
    + subst name; left; reflexivity.
    + destruct Hname as (e & He & ->).
      apply in_map_iff; exists e; split; [reflexivity|exact He].
  - rewrite (status_filter_name f t name None); exact Hf.
Qed.

Lemma assignees_nil (es : list employee) (t : task) :
  task_assignee_id t = None \/
  (exists a, task_assignee_id t = Some a /\
             forall e, In e es -> emp_id e <> a) ->
  assignees es t = [].
Proof.
  unfold assignees; intros [-> | (a & -> & Hno)]; [reflexivity|].
  induction es as [|e es IH]; simpl; [reflexivity|].
  assert (Hne : emp_id e <> a) by (apply Hno; left; reflexivity).
  apply Z.eqb_neq in Hne; rewrite Hne.
  apply IH; intros u Hu; apply Hno; right; exact Hu.
Qed.

Lemma assignees_in (es : list employee) (t : task) (e : employee) :
  In e es -> task_assignee_id t = Some (emp_id e) -> In e (assignees es t).
Proof.
  intros He Ha; unfold assignees; rewrite Ha.
  apply filter_In; split; [exact He|apply Z.eqb_refl].
Qed.

(** The line of a task whose assignee id an employee has: the name
    column is [name or 'unassigned']. *)
Lemma list_tasks_assignee_line (f : option string) (d : database) (t : task)
    (e : employee) :
  In t (rows (tasks d)) ->
  status_filter f (task_row_of t None) = true ->
  In e (rows (employees d)) ->
  task_assignee_id t = Some (emp_id e) ->
  In (task_line_of (task_id t) (task_title t)
                   (or_else (Some (emp_name e)) "unassigned")
                   (task_status t) (or_else (task_deadline t) "-"))
     (list_tasks f d).
Proof.
  intros Ht Hf He Ha.
  unfold list_tasks; apply in_map_iff.
  exists (task_row_of t (Some (emp_name e))); split; [reflexivity|].
  apply in_select_tasks; [exact Ht|exact Hf|].
  pose proof (assignees_in _ _ _ He Ha) as Hin.
  destruct (assignees (rows (employees d)) t) as [|m ms]; [destruct Hin|].
  exists e; split; [exact Hin|reflexivity].
Qed.

(** C7 (as amended): on every database, for every stored task that
    passes the status filter, [list_tasks] prints a line for the task
    joined with its assignee.  When the task has no assignee id, or an id
    no employee has, the line shows [unassigned]; when an employee has the
    id and a name that is not empty, the line shows that name; the
    deadline column shows the deadline, or [-] when there is none.
    [list_tasks] is total: it never fails. *)
Theorem list_tasks_assignee_shown (f : option string) (d : database)
    (t : task) :
  In t (rows (tasks d)) ->
  status_filter f (task_row_of t None) = true ->
  let due := or_else (task_deadline t) "-" in
  ((task_assignee_id t = None \/
    (exists a, task_assignee_id t = Some a /\
               forall e, In e (rows (employees d)) -> emp_id e <> a)) ->
   In (task_line_of (task_id t) (task_title t) "unassigned" (task_status t)
                    due)
      (list_tasks f d)) /\
  (forall e, In e (rows (employees d)) ->
             task_assignee_id t = Some (emp_id e) ->
             emp_name e <> "" ->
     In (task_line_of (task_id t) (task_title t) (emp_name e)
                      (task_status t) due)
        (list_tasks f d)) /\
  (task_deadline t = None -> due = "-").
Proof.
  intros Ht Hf due; split; [|split].
  - intros Hnone; apply assignees_nil in Hnone.
    unfold list_tasks; apply in_map_iff; exists (task_row_of t None).
    split; [reflexivity|].
    apply in_select_tasks; [exact Ht|exact Hf|rewrite Hnone; reflexivity].
  - intros e He Ha Hname.
    pose proof (list_tasks_assignee_line f d t e Ht Hf He Ha) as H.
    simpl in H; apply String.eqb_neq in Hname; rewrite Hname in H; exact H.
  - intros Hd; unfold due; rewrite Hd; reflexivity.
Qed.

End ListTasks.

(** C7 (as stated) fails: a task assigned to an existing employee whose
    name is the empty string is not shown with that name.  The listing of
    [nameless_db] is one line, and its assignee column reads
    [unassigned]. *)
Lemma list_tasks_empty_name_not_shown :
  ~ (forall (f : option string) (d : database) (t : task) (e : employee),
        In t (rows (tasks d)) ->
        status_filter f (task_row_of t None) = true ->
        In e (rows (employees d)) ->
        task_assignee_id t = Some (emp_id e) ->
        In (task_line_of (task_id t) (task_title t) (emp_name e)
                         (task_status t) (or_else (task_deadline t) "-"))
           (list_tasks f d)).
Proof.
  intros H.
  specialize (H None nameless_db report nameless
                (or_introl eq_refl) eq_refl (or_introl eq_refl) eq_refl).
  vm_compute in H; destruct H as [H|[]]; discriminate H.
Qed.

(** ** Export *)

Section Csv.

Lemma app_empty_r (s : string) : s ++ "" = s.
Proof. induction s; simpl; congruence. Qed.

Lemma app_assoc_string (a b c : string) : (a ++ b) ++ c = a ++ b ++ c.
Proof. induction a; simpl; congruence. Qed.

Lemma no_break_app (inq : bool) (a b : string) :
  no_break inq (a ++ b)
  = (no_break inq a && no_break (quote_state inq a) b)%bool.
Proof.
  revert inq; induction a as [|c a IH]; intros inq; simpl; [reflexivity|].
  destruct (Ascii.eqb c dquote); [apply IH|].
  destruct (negb inq && (Ascii.eqb c CR || Ascii.eqb c LF))%bool;
    [reflexivity|apply IH].
Qed.

Lemma quote_state_app (inq : bool) (a b : string) :
  quote_state inq (a ++ b) = quote_state (quote_state inq a) b.
Proof.
  revert inq; induction a as [|c a IH]; intros inq; simpl; [reflexivity|].
  apply IH.
Qed.

(** A reader that meets no line break outside quotes in [s] carries
    its record through [s]. *)
Lemma csv_records_app (inq : bool) (cur s rest : string) :
  no_break inq s = true ->
  csv_records inq cur (s ++ rest)
  = csv_records (quote_state inq s) (cur ++ s) rest.
Proof.
  revert inq cur; induction s as [|c s IH]; intros inq cur H; simpl in *.
  - rewrite app_empty_r; reflexivity.
  - replace (cur ++ String c s) with ((cur ++ String c EmptyString) ++ s)
      by (rewrite app_assoc_string; reflexivity).
    destruct (Ascii.eqb c dquote); [apply IH; exact H|].
    destruct inq; simpl in *; [apply IH; exact H|].
    destruct (Ascii.eqb c CR); [discriminate H|].
    destruct (Ascii.eqb c LF); [discriminate H|].
    apply IH; exact H.
Qed.

Lemma plain_balanced (inq : bool) (s : string) :
  string_exists special s = false ->
  no_break inq s = true /\ quote_state inq s = inq.
Proof.
  induction s as [|c s IH]; simpl; intros H; [split; reflexivity|].
  apply orb_false_iff in H as [Hc Hs]; unfold special in Hc.
  apply orb_false_iff in Hc as [Hc Hlf].
  apply orb_false_iff in Hc as [Hc Hcr].
  apply orb_false_iff in Hc as [_ Hq].
  rewrite Hq, Hcr, Hlf, andb_false_r; apply IH; exact Hs.
Qed.

Lemma double_quotes_balanced (s : string) (rest : string) :
  no_break true (double_quotes s ++ rest) = no_break true rest /\
  quote_state true (double_quotes s ++ rest) = quote_state true rest.
Proof.
  induction s as [|c s IH]; simpl; [split; reflexivity|].
  destruct (Ascii.eqb c dquote) eqn:E; simpl.
  - exact IH.
  - rewrite E; simpl; exact IH.
Qed.

Lemma render_field_balanced (v : value) : balanced (render_field v).
Proof.
  unfold balanced, render_field.
  destruct (string_exists special (field_text v)) eqn:E.
  - simpl; destruct (double_quotes_balanced (field_text v)
                       (String dquote EmptyString)) as [-> ->].
    split; reflexivity.
  - apply plain_balanced; exact E.
Qed.

Lemma balanced_app (a b : string) :
  balanced a -> balanced b -> balanced (a ++ b).
Proof.
  unfold balanced; intros [Ha1 Ha2] [Hb1 Hb2].
  rewrite no_break_app, quote_state_app, Ha1, Ha2, Hb1, Hb2.
  split; reflexivity.
Qed.

Lemma join_balanced (l : list string) :
  Forall balanced l -> balanced (join (String comma EmptyString) l).
Proof.
  induction 1 as [|s l Hs Hl IH]; [split; reflexivity|].
  destruct l as [|s' l']; [exact Hs|].
  change (join (String comma EmptyString) (s :: s' :: l'))
    with (s ++ String comma EmptyString
            ++ join (String comma EmptyString) (s' :: l')).
  apply balanced_app; [exact Hs|].
  apply (balanced_app (String comma EmptyString)); [split; reflexivity|].
  exact IH.
Qed.

Lemma record_text_balanced (fields : list value) :
  balanced (record_text fields).
Proof.
  assert (H : balanced (join (String comma EmptyString)
                             (map render_field fields))).
  { apply join_balanced, Forall_forall; intros s Hs.
    apply in_map_iff in Hs as (v & <- & _); apply render_field_balanced. }
  unfold record_text; destruct fields as [|v fields]; [exact H|].
  destruct (String.eqb _ ""); [split; reflexivity|exact H].
Qed.

(** The reader gives back the record that [writerow] wrote. *)
Lemma csv_records_writerow (fields : list value) (rest : string) :
  csv_records false "" (writerow fields ++ rest)
  = record_text fields :: csv_records false "" rest.
Proof.
  unfold writerow; rewrite app_assoc_string.
  destruct (record_text_balanced fields) as [Hb Hq].
  rewrite (csv_records_app _ _ _ _ Hb), Hq; reflexivity.
Qed.

Lemma csv_records_writerows (records : list (list value)) :
  csv_records false "" (writerows records) = map record_text records.
Proof.
  induction records as [|r records IH]; simpl; [reflexivity|].
  rewrite csv_records_writerow, IH; reflexivity.
Qed.

(** The rows of an export file: the header, then one row per record. *)
Lemma csv_rows_csv_file (cols : list string) (records : list (list value)) :
  csv_rows (csv_file cols records)
  = record_text (map Text cols) :: map record_text records.
Proof.
  unfold csv_rows, csv_file.
  rewrite csv_records_writerow, csv_records_writerows; reflexivity.
Qed.

(** *** Physical lines *)

Lemma count_char_app (a : ascii) (s1 s2 : string) :
  count_char a (s1 ++ s2) = (count_char a s1 + count_char a s2)%nat.
Proof. induction s1 as [|c s1 IH]; simpl; [reflexivity|rewrite IH; lia]. Qed.

Lemma count_LF_double_quotes (s : string) :
  count_char LF (double_quotes s) = count_char LF s.
Proof.
  induction s as [|c s IH]; simpl; [reflexivity|].
  destruct (Ascii.eqb_spec c dquote) as [->|N]; simpl; rewrite IH; reflexivity.
Qed.

Lemma count_LF_render_field (v : value) :
  count_char LF (render_field v) = count_char LF (field_text v).
Proof.
  unfold render_field; destruct (string_exists special (field_text v));
    [|reflexivity].
  simpl; rewrite count_char_app, count_LF_double_quotes; simpl; lia.
Qed.

Lemma count_LF_join (l : list string) :
  count_char LF (join (String comma EmptyString) l)
  = list_sum (map (count_char LF) l).
Proof.
  induction l as [|s l IH]; [reflexivity|].
  destruct l as [|s' l']; [simpl; lia|].
  change (join (String comma EmptyString) (s :: s' :: l'))
    with (s ++ String comma EmptyString
            ++ join (String comma EmptyString) (s' :: l')).
  rewrite count_char_app, (count_char_app LF (String comma EmptyString)), IH.
  simpl; lia.
Qed.

Lemma count_LF_record_text (fields : list value) :
  count_char LF (record_text fields) = record_breaks fields.
Proof.
  assert (H : count_char LF (join (String comma EmptyString)
                               (map render_field fields))
              = record_breaks fields).
  { rewrite count_LF_join, map_map; unfold record_breaks; f_equal.
    apply map_ext; intros v; apply count_LF_render_field. }
  unfold record_text; destruct fields as [|v fields]; [exact H|].
  destruct (String.eqb_spec
              (join (String comma EmptyString)
                    (map render_field (v :: fields))) "") as [E|N];
    [|exact H].
  rewrite <- H, E; reflexivity.
Qed.

Lemma count_LF_writerows (records : list (list value)) :
  count_char LF (writerows records)
  = (List.length records + list_sum (map record_breaks records))%nat.
Proof.
  induction records as [|r records IH]; simpl; [reflexivity|].
  unfold writerow; rewrite !count_char_app, count_LF_record_text, IH.
  simpl; lia.
Qed.

(** A file whose fields hold no line feed has one line for the header
    and one per record. *)
Lemma count_LF_csv_file (cols : list string) (records : list (list value)) :
  record_breaks (map Text cols) = 0%nat ->
  Forall (fun r => record_breaks r = 0%nat) records ->
  count_char LF (csv_file cols records) = S (List.length records).
Proof.
  intros Hc Hr; unfold csv_file, writerow.
  rewrite !count_char_app, count_LF_record_text, count_LF_writerows, Hc.
  replace (list_sum (map record_breaks records)) with 0%nat; [simpl; lia|].
  induction Hr as [|r records Hr0 _ IH]; simpl; [reflexivity|].
  rewrite Hr0, <- IH; reflexivity.
Qed.

Lemma count_LF_uint (u : Decimal.uint) :
  count_char LF (NilEmpty.string_of_uint u) = 0%nat.
Proof. induction u; simpl; auto. Qed.

Lemma count_LF_str_of_int (z : Z) : count_char LF (str_of_int z) = 0%nat.
Proof.
  unfold str_of_int; destruct (Z.to_int z) as [u|u]; simpl;
    destruct u; simpl; auto using count_LF_uint.
Qed.

Lemma count_LF_zfill (w : nat) (s : string) :
  count_char LF (zfill w s) = count_char LF s.
Proof.
  unfold zfill; rewrite count_char_app.
  induction (w - String.length s)%nat; simpl; auto.
Qed.

Lemma count_LF_strftime_DATE_FMT (now : datetime) :
  count_char LF (strftime_DATE_FMT now) = 0%nat.
Proof.
  unfold strftime_DATE_FMT.
  repeat (rewrite count_char_app || rewrite count_LF_zfill
          || rewrite count_LF_str_of_int).
  reflexivity.
Qed.

End Csv.

Lemma employee_breaks (e : employee) :
  record_breaks (employee_values e)
  = (count_char LF (emp_name e) + count_char LF (emp_role e))%nat.
Proof.
  unfold record_breaks; simpl; rewrite !count_LF_str_of_int; lia.
Qed.

Lemma role_no_LF (role : string) :
  In role role_values -> count_char LF role = 0%nat.
Proof. intros [<-|[<-|[]]]; reflexivity. Qed.

(** C9: for every database, [export_csv] writes the three files
    [employees.csv], [tasks.csv] and [shifts.csv] under the export
    directory and prints where.  Read back as CSV, each file has the
    table's column names as its first row and then one row per stored
    record, in order.  In particular, after three employees and two tasks
    (one assigned, one not) are added to an empty store, [employees.csv]
    has four rows and [tasks.csv] has three; these are also the numbers of
    physical lines when no name, title, description or deadline holds a
    line feed. *)
Theorem export_csv_rows (now : datetime) (d : database) :
  (exists c1 c2 c3,
     export_csv now d
     = ([(outdir now ++ "/employees.csv", c1);
         (outdir now ++ "/tasks.csv", c2);
         (outdir now ++ "/shifts.csv", c3)],
        ["Exported to " ++ outdir now ++ "/"]) /\
     csv_rows c1
     = "id,name,role,active"
         :: map (fun e => record_text (employee_values e))
                (rows (employees d)) /\
     csv_rows c2
     = "id,title,description,assignee_id,status,deadline,created,updated"
         :: map (fun t => record_text (task_values t)) (rows (tasks d)) /\
     csv_rows c3
     = "id,employee_id,start,end"
         :: map (fun s => record_text (shift_values s)) (rows (shifts d)) /\
     List.length (csv_rows c1) = S (List.length (rows (employees d))) /\
     List.length (csv_rows c2) = S (List.length (rows (tasks d))) /\
     List.length (csv_rows c3) = S (List.length (rows (shifts d)))) /\
  (forall (n1 r1 n2 r2 n3 r3 : string) (k1 k2 : datetime)
          (t1 : string) (de1 : option string) (a1 : Z) (dl1 : option string)
          (t2 : string) (de2 dl2 : option string),
      In r1 role_values -> In r2 role_values -> In r3 role_values ->
      sqlite_int64 a1 = true ->
      exists d' c1 c2 c3,
        (d1 <- add_employee n1 r1 (init_db empty_store) ;;
         d2 <- add_employee n2 r2 d1 ;;
         d3 <- add_employee n3 r3 d2 ;;
         d4 <- add_task k1 t1 de1 (Some a1) dl1 d3 ;;
         add_task k2 t2 de2 None dl2 d4) = Ok d' /\
        fst (export_csv now d')
        = [(outdir now ++ "/employees.csv", c1);
           (outdir now ++ "/tasks.csv", c2);
           (outdir now ++ "/shifts.csv", c3)] /\
        List.length (csv_rows c1) = 4%nat /\
        List.length (csv_rows c2) = 3%nat /\
        hd "" (csv_rows c1) = "id,name,role,active" /\
        hd "" (csv_rows c2)
        = "id,title,description,assignee_id,status,deadline,created,updated" /\
        (Forall (fun s => count_char LF s = 0%nat) [n1; n2; n3] ->
         count_char LF c1 = 4%nat) /\
        (Forall (fun v => count_char LF (field_text v) = 0%nat)
                [Text t1; opt_text de1; opt_text dl1;
                 Text t2; opt_text de2; opt_text dl2] ->
         count_char LF c2 = 3%nat)).
Proof.
  split.
  - do 3 eexists; split; [reflexivity|].
    rewrite !csv_rows_csv_file, !map_map; simpl.
    rewrite !length_map.
    repeat split.
  - intros n1 r1 n2 r2 n3 r3 k1 k2 t1 de1 a1 dl1 t2 de2 dl2 H1 H2 H3 Ha.
    unfold add_employee, add_task, bind_opt_int, bind_int.
    rewrite (role_check_in _ H1); simpl.
    rewrite (role_check_in _ H2); simpl.
    rewrite (role_check_in _ H3); simpl.
    rewrite Ha; simpl.
    do 4 eexists; split; [reflexivity|].
    split; [reflexivity|].
    rewrite !csv_rows_csv_file; simpl rows; simpl List.length.
    split; [reflexivity|]. split; [reflexivity|].
    split; [reflexivity|]. split; [reflexivity|].
    split.
    + intros Hn. 
      rewrite count_LF_csv_file; [reflexivity|reflexivity|].
      simpl map.
      repeat (apply Forall_cons_iff in Hn as [? Hn]).
      pose proof (role_no_LF _ H1); pose proof (role_no_LF _ H2);
        pose proof (role_no_LF _ H3).
      repeat (apply Forall_cons; [rewrite employee_breaks; simpl; lia|]).
      apply Forall_nil.
    + intros Hn.
      rewrite count_LF_csv_file; [reflexivity|reflexivity|].
      simpl map.
      repeat (apply Forall_cons_iff in Hn as [? Hn]).
      repeat (apply Forall_cons; [unfold record_breaks; simpl in *;
        rewrite ?count_LF_str_of_int, ?count_LF_strftime_DATE_FMT; lia|]).
      apply Forall_nil.
Qed.

(** ** The properties at the sample data *)

Lemma update_task_status_missing_id_witness :
  sqlite_int64 7 = true /\
  (forall t, In t (rows (tasks sample_db)) -> task_id t <> 7) /\
  update_task_status clock_0159 7 "done" sample_db = Ok sample_db /\
  exit_status (main clock_0159 (cmd_update_task 7 "done") (store_of sample_db))
  = 0.
Proof.
  assert (Hmiss : forall t, In t (rows (tasks sample_db)) -> task_id t <> 7)
    by (intros t [<-|[]]; discriminate).
  destruct (update_task_status_missing_id clock_0159 7 "done" sample_db
              eq_refl Hmiss) as (_ & Hup & Hmain).
  split; [reflexivity|].
  split; [exact Hmiss|].
  split; [exact Hup|].
  apply Hmain; reflexivity.
Defined.

Lemma update_task_status_existing_id_witness :
  sqlite_int64 1 = true /\
  find_task 1 sample_db = Some report /\
  status_check "done" = true /\
  exists d',
    update_task_status clock_0159 1 "done" sample_db = Ok d' /\
    find_task 1 d' = Some (set_status "done" "2024-11-03 01:59" report).
Proof.
  destruct (update_task_status_existing_id clock_0159 1 "done" sample_db report
              eq_refl eq_refl eq_refl) as (d' & t' & Hup & Hf & Ht & _).
  repeat (split; [reflexivity|]).
  exists d'; split; [exact Hup|].
  rewrite Hf, Ht; reflexivity.
Defined.

Lemma clock_0159_ok : datetime_ok clock_0159.
Proof. unfold datetime_ok; simpl; lia. Defined.

Lemma empty_table_key_left (R : Set) (key : R -> Z) :
  has_key_left key (@empty_table R).
Proof. split; [constructor|reflexivity]. Defined.


Lemma add_employee_then_list_witness :
  In "manager" role_values /\
  has_key_left emp_id (employees (init_db empty_store)) /\
  exists d' e,
    add_employee "Alice" "manager" (init_db empty_store) = Ok d' /\
    In e (select_employees false d') /\
    emp_name e = "Alice" /\ emp_role e = "manager" /\ emp_active e = 1.
Proof.
  assert (Hrole : In "manager" role_values) by (right; left; reflexivity).
  split; [exact Hrole|].
  split; [exact (empty_table_key_left employee emp_id)|].
  destruct (add_employee_then_list "Alice" "manager" (init_db empty_store)
              Hrole (empty_table_key_left employee emp_id))
    as (d' & e & Hadd & Hin & Hn & Hr & Ha & _).
  exists d', e; repeat split; assumption.
Defined.

Lemma list_tasks_assignee_shown_witness :
  In report (rows (tasks sample_db)) /\
  status_filter None (task_row_of report None) = true /\
  In alice (rows (employees sample_db)) /\
  task_assignee_id report = Some (emp_id alice) /\
  In (task_line_of 1 "Write report" "Alice" "todo" "-")
     (list_tasks None sample_db).
Proof.
  assert (Ht : In report (rows (tasks sample_db))) by (left; reflexivity).
  assert (He : In alice (rows (employees sample_db))) by (left; reflexivity).
  repeat (split; [assumption || reflexivity|]).
  destruct (list_tasks_assignee_shown None sample_db report Ht eq_refl)
    as (_ & Hshown & _).
  apply (Hshown alice He eq_refl); discriminate.
Defined.

Lemma export_csv_rows_witness :
  exists d' c1 c2 c3,
    (d1 <- add_employee "Alice" "manager" (init_db empty_store) ;;
     d2 <- add_employee "Bob" "staff" d1 ;;
     d3 <- add_employee "Carol" "staff" d2 ;;
     d4 <- add_task clock_0100 "Write report" (Some "") (Some 1) None d3 ;;
     add_task clock_0159 "File report" (Some "") None None d4) = Ok d' /\
    fst (export_csv clock_0159 d')
    = [("export_20241103_0159/employees.csv", c1);
       ("export_20241103_0159/tasks.csv", c2);
       ("export_20241103_0159/shifts.csv", c3)] /\
    List.length (csv_rows c1) = 4%nat /\
    List.length (csv_rows c2) = 3%nat /\
    count_char LF c1 = 4%nat /\
    count_char LF c2 = 3%nat.
Proof.
  destruct (export_csv_rows clock_0159 sample_db) as [_ H].
  destruct (H "Alice" "manager" "Bob" "staff" "Carol" "staff"
              clock_0100 clock_0159 "Write report" (Some "") 1 None
              "File report" (Some "") None
              (or_intror (or_introl eq_refl)) (or_introl eq_refl)
              (or_introl eq_refl) eq_refl)
    as (d' & c1 & c2 & c3 & Hrun & Hfiles & H1 & H2 & _ & _ & L1 & L2).
  exists d', c1, c2, c3.
  split; [exact Hrun|].
  split; [exact Hfiles|].
  split; [exact H1|].
  split; [exact H2|].
  split; [apply L1|apply L2]; repeat constructor.
Defined.

(* ================================================================== *)
(** * Further properties *)

(** ** What every command keeps *)

Section Invariants.

Lemma keys_ok_insert (R : Set) (key : R -> Z) (tb : table R) (r : R) :
  next_id (map key (rows tb)) (seq tb) = Ok (key r) ->
  keys_ok key tb ->
  keys_ok key (mk_table (rows tb ++ [r]) (key r)).
Proof.
  intros Hr [Hnd Hle].
  destruct (next_id_ok _ _ _ Hr) as (Hsq & Hids & _).
  rewrite Forall_forall in Hids.
  split; simpl.
  - rewrite map_app; apply NoDup_app; [exact Hnd|repeat constructor; intros []|].
    intros i Hi [<-|[]]; apply Hids in Hi; lia.
  - apply Forall_app; split; [|repeat constructor; lia].
    rewrite Forall_forall in *; intros x Hx.
    specialize (Hle x Hx); lia.
Qed.

Lemma add_employee_keeps_schema (name role : string) (d d' : database) :
  schema_ok d -> add_employee name role d = Ok d' -> schema_ok d'.
Proof.
  intros (He & Ht & Hs & Hr & Hst) Hadd.
  destruct (add_employee_inv _ _ _ _ Hadd) as (Hrole & k & Hk & ->).
  unfold schema_ok; simpl.
  split; [|split; [exact Ht|split; [exact Hs|split; [|exact Hst]]]].
  - apply (keys_ok_insert _ emp_id (employees d)
             (mk_employee k name role 1) Hk He).
  - apply Forall_app; split; [exact Hr|repeat constructor; exact Hrole].
Qed.

Lemma add_task_keeps_schema (now : datetime) (title : string)
    (desc : option string) (a : option Z) (dl : option string)
    (d d' : database) :
  schema_ok d -> add_task now title desc a dl d = Ok d' -> schema_ok d'.
Proof.
  intros (He & Ht & Hs & Hr & Hst) Hadd.
  destruct (add_task_inv _ _ _ _ _ _ _ Hadd) as (_ & k & Hk & ->).
  unfold schema_ok; simpl.
  split; [exact He|split; [|split; [exact Hs|split; [exact Hr|]]]].
  - apply (keys_ok_insert _ task_id (tasks d) (mk_task k _ _ _ _ _ _ _)
             Hk Ht).
  - apply Forall_app; split; [exact Hst|repeat constructor].
Qed.

Lemma map_task_id_set_status (id : Z) (status stamp : string) (l : list task) :
  map task_id
      (map (fun t => if task_id t =? id then set_status status stamp t else t)
           l)
  = map task_id l.
Proof.
  rewrite map_map; apply map_ext; intros t.
  destruct (task_id t =? id); reflexivity.
Qed.

Lemma update_task_status_keeps_schema (now : datetime) (id : Z)
    (status : string) (d d' : database) :
  schema_ok d -> update_task_status now id status d = Ok d' -> schema_ok d'.
Proof.
  intros (He & [Hnd Hle] & Hs & Hr & Hst); unfold update_task_status, bind_int.
  destruct (sqlite_int64 id); simpl; [|discriminate].
  destruct (existsb _ _ && negb (status_check status))%bool eqn:E;
    [discriminate|].
  intros [= <-]; unfold schema_ok, keys_ok; simpl.
  split; [exact He|split; [split|split; [exact Hs|split; [exact Hr|]]]].
  - rewrite map_task_id_set_status; exact Hnd.
  - rewrite Forall_forall in *; intros t' Ht'.
    apply in_map_iff in Ht' as (t & <- & Ht).
    destruct (task_id t =? id); simpl; apply Hle, Ht.
  - rewrite Forall_forall in *; intros t' Ht'.
    apply in_map_iff in Ht' as (t & <- & Ht).
    destruct (task_id t =? id) eqn:Hhit; [simpl|apply Hst, Ht].
    apply andb_false_iff in E as [E|E].
    + assert (existsb (fun t => task_id t =? id) (rows (tasks d)) = true)
        by (apply existsb_exists; exists t; split; assumption).
      congruence.
    + apply negb_false_iff; exact E.
Qed.

Lemma run_update_keeps_schema (d : database) (r : result database) :
  schema_ok d -> (forall d', r = Ok d' -> schema_ok d') ->
  schema_ok (out_db (run_update d r)).
Proof.
  intros Hd Hr; destruct r as [d'|e]; simpl; [apply Hr; reflexivity|exact Hd].
Qed.

(** X1: every command keeps the constraints of the schema.  If, before
    [main] runs, no table has a key twice or a key above its counter, every
    employee's role passes its CHECK and every task's status passes its
    CHECK, then the same holds of the database [main] leaves, whatever the
    command and however it ends. *)
Theorem main_keeps_schema (now : datetime) (c : command) (s : store) :
  schema_ok (init_db s) -> schema_ok (out_db (main now c s)).
Proof.
  intros H; unfold main.
  destruct (parse_args c) as [[name role|all|title desc a dl|st|id st|]|];
    simpl; try exact H.
  - apply run_update_keeps_schema; [exact H|].
    intros d'; apply add_employee_keeps_schema; exact H.
  - apply run_update_keeps_schema; [exact H|].
    intros d'; apply add_task_keeps_schema; exact H.
  - apply run_update_keeps_schema; [exact H|].
    intros d'; apply update_task_status_keeps_schema; exact H.
Qed.

(** An empty database meets the constraints. *)
Lemma schema_ok_empty : schema_ok (init_db empty_store).
Proof.
  unfold schema_ok, keys_ok; simpl; repeat split; constructor.
Defined.






End Invariants.

(** ** What the commands leave alone *)

Section Frame.

Variable now : datetime.

(** X3: no command removes or rewrites an employee, removes a task or
    changes a task's key, or touches the shifts table; a run adds at most
    one row in all, to the employees or to the tasks; the listing
    commands, the export and a refused command line leave the database as
    it was; only the export writes files. *)
Theorem main_frame (c : command) (s : store) :
  let d := init_db s in
  let o := main now c s in
  shifts (out_db o) = shifts d /\
  (exists extra_e extra_t,
      rows (employees (out_db o)) = (rows (employees d) ++ extra_e)%list /\
      map task_id (rows (tasks (out_db o)))
      = (map task_id (rows (tasks d)) ++ extra_t)%list /\
      (List.length extra_e + List.length extra_t <= 1)%nat) /\
  (read_only c = true \/ parse_args c = None -> out_db o = d) /\
  (c <> cmd_export -> out_files o = []).
Proof.
  intros d o.
  assert (Hsame : forall d0 : database,
             exists (extra_e : list employee) (extra_t : list Z),
               rows (employees d0) = (rows (employees d0) ++ extra_e)%list /\
               map task_id (rows (tasks d0))
               = (map task_id (rows (tasks d0)) ++ extra_t)%list /\
               (List.length extra_e + List.length extra_t <= 1)%nat).
  { intros d0; exists [], []; rewrite !app_nil_r.
    split; [reflexivity|split; [reflexivity|simpl; lia]]. }
  assert (Hrun : forall r : result database,
             (forall d', r = Ok d' ->
                shifts d' = shifts d /\
                exists (extra_e : list employee) (extra_t : list Z),
                  rows (employees d') = (rows (employees d) ++ extra_e)%list /\
                  map task_id (rows (tasks d'))
                  = (map task_id (rows (tasks d)) ++ extra_t)%list /\
                  (List.length extra_e + List.length extra_t <= 1)%nat) ->
             shifts (out_db (run_update d r)) = shifts d /\
             (exists (extra_e : list employee) (extra_t : list Z),
                 rows (employees (out_db (run_update d r)))
                 = (rows (employees d) ++ extra_e)%list /\
                 map task_id (rows (tasks (out_db (run_update d r))))
                 = (map task_id (rows (tasks d)) ++ extra_t)%list /\
                 (List.length extra_e + List.length extra_t <= 1)%nat) /\
             out_files (run_update d r) = []).
  { intros [d'|e] Hr; simpl.
    - destruct (Hr d' eq_refl) as [H1 H2]; repeat split; assumption.
    - split; [reflexivity|split; [exact (Hsame d)|reflexivity]]. }
  unfold o, main; fold d.
  destruct c as [name role|all|title desc a dl|st|id st|]; unfold parse_args.
  - destruct (str_in role role_choices); cbv beta iota.
    + destruct (Hrun (add_employee name role d)) as (H1 & H2 & H3).
      { intros d' Hadd.
        destruct (add_employee_inv _ _ _ _ Hadd) as (_ & k & _ & ->); simpl.
        split; [reflexivity|].
        exists [mk_employee k name role 1], []; rewrite app_nil_r.
        split; [reflexivity|split; [reflexivity|simpl; lia]]. }
      split; [exact H1|]. split; [exact H2|].
      split; [intros [H|H]; discriminate H|intros _; exact H3].
    + simpl; split; [reflexivity|]. split; [exact (Hsame d)|].
      split; reflexivity.
  - simpl; split; [reflexivity|]. split; [exact (Hsame d)|]. split; reflexivity.
  - cbv beta iota.
    destruct (Hrun (add_task now title (Some desc) a dl d)) as (H1 & H2 & H3).
    { intros d' Hadd.
      destruct (add_task_inv _ _ _ _ _ _ _ Hadd) as (_ & k & _ & ->); simpl.
      split; [reflexivity|].
      exists [], [k]; rewrite app_nil_r, map_app.
      split; [reflexivity|split; [reflexivity|simpl; lia]]. }
    split; [exact H1|]. split; [exact H2|].
    split; [intros [H|H]; discriminate H|intros _; exact H3].
  - destruct st as [st|];
      [destruct (str_in st list_tasks_status_choices)|];
      simpl; (split; [reflexivity|]); (split; [exact (Hsame d)|]);
      split; reflexivity.
  - destruct (str_in st update_task_status_choices); cbv beta iota.
    + destruct (Hrun (update_task_status now id st d)) as (H1 & H2 & H3).
      { intros d'; unfold update_task_status, bind_int.
        destruct (sqlite_int64 id); simpl; [|discriminate].
        destruct (existsb _ _ && negb (status_check st))%bool;
          [discriminate|].
        intros [= <-]; simpl; split; [reflexivity|].
        exists [], []; rewrite !app_nil_r, map_task_id_set_status.
        split; [reflexivity|split; [reflexivity|simpl; lia]]. }
      split; [exact H1|]. split; [exact H2|].
      split; [intros [H|H]; discriminate H|intros _; exact H3].
    + simpl; split; [reflexivity|]. split; [exact (Hsame d)|].
      split; reflexivity.
  - simpl; split; [reflexivity|]. split; [exact (Hsame d)|].
    split; [reflexivity|intros H; contradiction H; reflexivity].
Qed.

(** X4: no command deactivates an employee.  If every employee has the
    active flag 1 before [main] runs, every employee has it afterwards,
    and the listing of active employees is then the listing of all
    employees. *)
Theorem main_keeps_all_active (c : command) (s : store) :
  all_active (init_db s) ->
  all_active (out_db (main now c s)) /\
  list_employees true (out_db (main now c s))
  = list_employees false (out_db (main now c s)).
Proof.
  intros H.
  assert (H' : all_active (out_db (main now c s))).
  { unfold main.
    destruct (parse_args c) as [[name role|all|title desc a dl|st|id st|]|];
      simpl; try exact H.
    - destruct (add_employee name role (init_db s)) as [d'|e] eqn:Hadd;
        simpl; [|exact H].
      destruct (add_employee_inv _ _ _ _ Hadd) as (_ & k & _ & ->).
      apply Forall_app; split; [exact H|repeat constructor].
    - destruct (add_task now title (Some desc) a dl (init_db s))
        as [d'|e] eqn:Hadd; simpl; [|exact H].
      destruct (add_task_inv _ _ _ _ _ _ _ Hadd) as (_ & k & _ & ->).
      exact H.
    - unfold update_task_status; destruct (bind_int id); simpl; [|exact H].
      destruct (existsb _ _ && negb (status_check st))%bool; simpl; exact H. }
  split; [exact H'|].
  unfold list_employees, select_employees; f_equal.
  unfold all_active in H'; induction H' as [|e l He _ IH]; simpl;
    [reflexivity|].
  rewrite He, IH; reflexivity.
Qed.

End Frame.

(** ** Status updates, again *)

Section UpdateMore.

Lemma existsb_map_set_status (id : Z) (st stamp : string) (l : list task) :
  existsb (fun t => task_id t =? id)
          (map (fun t => if task_id t =? id then set_status st stamp t else t)
               l)
  = existsb (fun t => task_id t =? id) l.
Proof.
  induction l as [|t l IH]; simpl; [reflexivity|].
  rewrite IH; destruct (task_id t =? id) eqn:Ht; simpl; rewrite ?Ht;
    reflexivity.
Qed.

Lemma map_set_status_twice (id : Z) (st1 stamp1 st2 stamp2 : string)
    (l : list task) :
  map (fun t => if task_id t =? id then set_status st2 stamp2 t else t)
      (map (fun t => if task_id t =? id then set_status st1 stamp1 t else t)
           l)
  = map (fun t => if task_id t =? id then set_status st2 stamp2 t else t) l.
Proof.
  rewrite map_map; apply map_ext; intros t.
  destruct (task_id t =? id) eqn:Ht; simpl; rewrite ?Ht; reflexivity.
Qed.

(** X5: the last status update wins.  After a status update that
    succeeded, a second update of the same id gives what it would have
    given without the first; and repeating the first update at the same
    clock reading changes nothing. *)
Theorem update_task_status_last_wins (now1 now2 : datetime) (id : Z)
    (s1 s2 : string) (d d1 : database) :
  update_task_status now1 id s1 d = Ok d1 ->
  update_task_status now2 id s2 d1 = update_task_status now2 id s2 d /\
  update_task_status now1 id s1 d1 = Ok d1.
Proof.
  unfold update_task_status, bind_int.
  destruct (sqlite_int64 id); simpl; [|discriminate].
  destruct (existsb (fun t => task_id t =? id) (rows (tasks d))
            && negb (status_check s1))%bool eqn:E; [discriminate|].
  intros [= <-]; simpl.
  rewrite !existsb_map_set_status, !map_set_status_twice, E.
  split; reflexivity.
Qed.

(** X6: a status the CHECK refuses is noticed only when a row has the
    id.  Called with such a status (and an id the driver can bind),
    [update_task_status] raises [IntegrityError] when some task has the id
    and succeeds, changing nothing, when none has. *)
Theorem update_task_status_invalid_status (now : datetime) (id : Z)
    (status : string) (d : database) :
  sqlite_int64 id = true ->
  status_check status = false ->
  update_task_status now id status d
  = if existsb (fun t => task_id t =? id) (rows (tasks d))
    then Raise IntegrityError else Ok d.
Proof.
  intros Hid Hs; unfold update_task_status; rewrite (bind_int_ok _ Hid).
  unfold bind; rewrite Hs, andb_true_r.
  destruct (existsb _ _) eqn:E; [reflexivity|].
  rewrite map_no_hit.
  - destruct d as [e [r q] sh]; reflexivity.
  - intros t Ht Heq.
    assert (existsb (fun t => task_id t =? id) (rows (tasks d)) = true)
      by (apply existsb_exists; exists t; split; [exact Ht|apply Z.eqb_eq, Heq]).
    congruence.
Qed.

End UpdateMore.

(** ** Listings, again *)

Section ListingsMore.

Lemma filter_unique_id (a : Z) (es : list employee) :
  NoDup (map emp_id es) ->
  filter (fun e => emp_id e =? a) es
  = match find (fun e => emp_id e =? a) es with
    | Some e => [e]
    | None => []
    end.
Proof.
  induction es as [|e es IH]; simpl; intros Hnd; [reflexivity|].
  apply NoDup_cons_iff in Hnd as [Hnot Hnd].
  destruct (Z.eqb_spec (emp_id e) a) as [E|N]; [|apply IH, Hnd].
  f_equal.
  destruct (filter (fun e0 => emp_id e0 =? a) es) as [|x l] eqn:F;
    [reflexivity|].
  exfalso; apply Hnot.
  assert (Hx : In x (filter (fun e0 => emp_id e0 =? a) es))
    by (rewrite F; left; reflexivity).
  apply filter_In in Hx as [Hx Hid]; apply Z.eqb_eq in Hid.
  rewrite E, <- Hid; apply in_map, Hx.
Qed.

Lemma left_join_unique_id (ts : list task) (es : list employee) :
  NoDup (map emp_id es) ->
  left_join ts es = map (fun t => task_row_of t (assignee_name es t)) ts.
Proof.
  intros Hnd; induction ts as [|t ts IH]; [reflexivity|].
  change (left_join (t :: ts) es)
    with ((match assignees es t with
           | [] => [task_row_of t None]
           | ms => map (fun e => task_row_of t (Some (emp_name e))) ms
           end) ++ left_join ts es)%list.
  rewrite IH; cbn [map]; unfold assignees.
  destruct (task_assignee_id t) as [a|] eqn:Ea.
  - replace (assignee_name es t)
      with (option_map emp_name (find (fun e => emp_id e =? a) es))
      by (unfold assignee_name; rewrite Ea; reflexivity).
    rewrite (filter_unique_id a es Hnd).
    destruct (find (fun e => emp_id e =? a) es); reflexivity.
  - replace (assignee_name es t) with (@None string)
      by (unfold assignee_name; rewrite Ea; reflexivity).
    reflexivity.
Qed.

(** X7: with unique employee keys the join neither drops nor repeats a
    task.  [list_tasks] prints, in storage order, one line for every task
    that passes the status filter, with the name of the employee whose id
    is the task's assignee id (none when there is no such employee); so
    the unfiltered listing has as many lines as there are tasks. *)
Theorem list_tasks_one_line_per_task (f : option string) (d : database) :
  NoDup (map emp_id (rows (employees d))) ->
  list_tasks f d
  = map (fun t => task_line
                    (task_row_of t (assignee_name (rows (employees d)) t)))
        (filter (fun t => status_filter f (task_row_of t None))
                (rows (tasks d))) /\
  (List.length (list_tasks None d) = List.length (rows (tasks d))).
Proof.
  intros Hnd.
  assert (H : forall g, list_tasks g d
    = map (fun t => task_line
                      (task_row_of t (assignee_name (rows (employees d)) t)))
          (filter (fun t => status_filter g (task_row_of t None))
                  (rows (tasks d)))).
  { intros g; unfold list_tasks, select_tasks.
    rewrite (left_join_unique_id _ _ Hnd), filter_map_swap, map_map.
    f_equal; apply filter_ext; intros t; apply status_filter_name. }
  split; [apply H|].
  rewrite H, length_map; clear H; simpl.
  induction (rows (tasks d)) as [|t l IH]; simpl; [reflexivity|].
  rewrite IH; reflexivity.
Qed.

(** X8: [add_task] takes an assignee id that no employee has (the
    reference to [employees] is not enforced): when the driver can bind
    the id and the tasks table has a key left, the task is stored with
    that id, the employees table is untouched, and the listing shows the
    task as [unassigned]. *)
Theorem add_task_dangling_assignee (now : datetime) (title : string)
    (desc : option string) (a : Z) (deadline : option string)
    (d : database) :
  sqlite_int64 a = true ->
  has_key_left task_id (tasks d) ->
  (forall e, In e (rows (employees d)) -> emp_id e <> a) ->
  exists d' t,
    add_task now title desc (Some a) deadline d = Ok d' /\
    rows (tasks d') = (rows (tasks d) ++ [t])%list /\
    task_assignee_id t = Some a /\
    employees d' = employees d /\
    In (task_line_of (task_id t) title "unassigned" "todo"
                     (or_else deadline "-"))
       (list_tasks None d').
Proof.
  intros Ha Hleft Hno.
  destruct (has_key_left_next_id _ _ _ Hleft) as [k Hk].
  rewrite (add_task_ok now title desc (Some a) deadline d k Ha Hk).
  eexists; eexists; split; [reflexivity|]; simpl.
  split; [reflexivity|]. split; [reflexivity|]. split; [reflexivity|].
  set (t := mk_task k title desc (Some a) "todo" deadline _ _).
  unfold list_tasks; apply in_map_iff; exists (task_row_of t None).
  split; [reflexivity|].
  apply in_select_tasks; simpl.
  - apply in_or_app; right; left; reflexivity.
  - reflexivity.
  - rewrite assignees_nil; [reflexivity|].
    right; exists a; split; [reflexivity|exact Hno].
Qed.

(** X9: a new employee gets a fresh key and comes last in both
    listings.  With a role the CHECK accepts and an employees table that
    has a key left, [add_employee] succeeds; the new key is the one the
    table gives: above every stored key and above the table's counter, and
    not above the largest key there is; it becomes the table's counter;
    each listing (active only, or all) is the former listing followed by
    the new employee's line; tasks and shifts are untouched. *)
Theorem add_employee_appends (name role : string) (d : database) :
  role_check role = true ->
  has_key_left emp_id (employees d) ->
  exists d' k,
    add_employee name role d = Ok d' /\
    next_id (map emp_id (rows (employees d))) (seq (employees d)) = Ok k /\
    (forall b, list_employees b d'
               = (list_employees b d
                    ++ [employee_line (mk_employee k name role 1)])%list) /\
    (forall x, In x (rows (employees d)) -> emp_id x < k) /\
    seq (employees d) < k /\ k <= MAX_ROWID /\
    seq (employees d') = k /\
    tasks d' = tasks d /\ shifts d' = shifts d.
Proof.
  intros Hrole Hleft.
  destruct (has_key_left_next_id _ _ _ Hleft) as [k Hk].
  rewrite (add_employee_ok _ _ _ _ Hk Hrole).
  eexists; exists k; split; [reflexivity|]. split; [exact Hk|].
  destruct (next_id_ok _ _ _ Hk) as (Hsq & Hids & Hmax & _).
  split; [|split; [|split; [exact Hsq|split; [exact Hmax|repeat split]]]].
  - intros [|]; unfold list_employees, select_employees; simpl.
    + rewrite filter_app, map_app; reflexivity.
    + rewrite map_app; reflexivity.
  - intros x Hx; rewrite Forall_forall in Hids.
    apply Hids, in_map, Hx.
Qed.

(** X10: one employee added to an empty database, one task assigned
    to employee 1 and then set to [done]: all three calls succeed, the
    listing under [done] is exactly one line, for task 1 with the given
    title, the employee's name (or [unassigned] if the name is empty), the
    status [done] and the deadline (or [-]); the listing under [todo] is
    empty and the unfiltered listing is that one line. *)
Theorem scenario_done_listing (now1 now2 : datetime) (name role title : string)
    (desc deadline : option string) :
  role_check role = true ->
  exists d1 d2 d3,
    add_employee name role (init_db empty_store) = Ok d1 /\
    add_task now1 title desc (Some 1) deadline d1 = Ok d2 /\
    update_task_status now2 1 "done" d2 = Ok d3 /\
    list_tasks (Some "done") d3
    = [task_line_of 1 title (or_else (Some name) "unassigned") "done"
                    (or_else deadline "-")] /\
    list_tasks (Some "todo") d3 = [] /\
    list_tasks None d3 = list_tasks (Some "done") d3.
Proof.
  intros Hrole.
  rewrite (add_employee_ok name role (init_db empty_store) 1 eq_refl Hrole).
  do 3 eexists; split; [reflexivity|].
  split; [reflexivity|]. split; [reflexivity|].
  repeat split.
Qed.

End ListingsMore.

(** ** Reading the export back *)

Section CsvRead.

Lemma special_false (c : ascii) :
  special c = false ->
  Ascii.eqb c comma = false /\ Ascii.eqb c dquote = false.
Proof.
  unfold special; intros H.
  apply orb_false_iff in H as [H _].
  apply orb_false_iff in H as [H _].
  apply orb_false_iff in H as [H1 H2]; split; assumption.
Qed.

Lemma in_field_plain (cur t rest : string) :
  string_exists special t = false ->
  csv_fields_from InField cur (t ++ String comma rest)
  = (cur ++ t) :: csv_fields_from StartField "" rest /\
  csv_fields_from InField cur t = [cur ++ t].
Proof.
  revert cur; induction t as [|c t IH]; intros cur H; simpl in *.
  - rewrite app_empty_r; split; reflexivity.
  - apply orb_false_iff in H as [Hc Ht].
    destruct (special_false _ Hc) as [Hcomma _]; rewrite Hcomma.
    destruct (IH (cur ++ String c EmptyString) Ht) as [-> ->].
    rewrite app_assoc_string; split; reflexivity.
Qed.

Lemma in_quoted_field (cur t tail : string) :
  csv_fields_from InQuotedField cur (double_quotes t ++ String dquote tail)
  = csv_fields_from QuoteInQuotedField (cur ++ t) tail.
Proof.
  revert cur; induction t as [|c t IH]; intros cur; simpl.
  - rewrite app_empty_r; reflexivity.
  - destruct (Ascii.eqb_spec c dquote) as [->|N]; simpl.
    + rewrite IH, app_assoc_string; reflexivity.
    + apply Ascii.eqb_neq in N; rewrite N, IH, app_assoc_string.
      reflexivity.
Qed.

Lemma field_then_comma (v : value) (rest : string) :
  csv_fields_from StartField "" (render_field v ++ String comma rest)
  = field_text v :: csv_fields_from StartField "" rest.
Proof.
  unfold render_field.
  destruct (string_exists special (field_text v)) eqn:E.
  - simpl; rewrite app_assoc_string; simpl.
    rewrite in_quoted_field; reflexivity.
  - destruct (field_text v) as [|c t]; [reflexivity|].
    simpl in E; apply orb_false_iff in E as [Hc Ht].
    destruct (special_false _ Hc) as [Hcomma Hq]; simpl.
    rewrite Hcomma, Hq.
    destruct (in_field_plain (String c EmptyString) t rest Ht) as [-> _].
    reflexivity.
Qed.

Lemma field_last (v : value) :
  csv_fields_from StartField "" (render_field v) = [field_text v].
Proof.
  unfold render_field.
  destruct (string_exists special (field_text v)) eqn:E.
  - simpl; rewrite in_quoted_field; reflexivity.
  - destruct (field_text v) as [|c t]; [reflexivity|].
    simpl in E; apply orb_false_iff in E as [Hc Ht].
    destruct (special_false _ Hc) as [Hcomma Hq]; simpl.
    rewrite Hcomma, Hq.
    destruct (in_field_plain (String c EmptyString) t "" Ht) as [_ ->].
    reflexivity.
Qed.

Lemma join_fields (v : value) (vs : list value) :
  csv_fields_from StartField ""
    (join (String comma EmptyString) (map render_field (v :: vs)))
  = map field_text (v :: vs).
Proof.
  revert v; induction vs as [|v' vs IH]; intros v.
  - apply field_last.
  - change (join (String comma EmptyString) (map render_field (v :: v' :: vs)))
      with (render_field v
              ++ String comma
                   (join (String comma EmptyString)
                         (map render_field (v' :: vs)))).
    rewrite field_then_comma, IH; reflexivity.
Qed.

Lemma start_record_nonempty (s : string) :
  s <> "" ->
  csv_fields_from StartRecord "" s = csv_fields_from StartField "" s.
Proof. destruct s; [intros H; contradiction H|]; reflexivity. Qed.

Lemma render_field_empty (v : value) :
  render_field v = "" -> field_text v = "".
Proof.
  unfold render_field; destruct (string_exists special (field_text v));
    [discriminate|intros H; exact H].
Qed.

Lemma join_empty (v : value) (vs : list value) :
  join (String comma EmptyString) (map render_field (v :: vs)) = "" ->
  vs = [] /\ field_text v = "".
Proof.
  destruct vs as [|v' vs]; simpl.
  - intros H; split; [reflexivity|apply render_field_empty, H].
  - intros H; exfalso.
    destruct (render_field v); simpl in H; discriminate H.
Qed.

(** A reader gets back from a record the texts of the fields written. *)
Lemma csv_fields_record_text (vs : list value) :
  csv_fields (record_text vs) = map field_text vs.
Proof.
  unfold csv_fields, record_text; destruct vs as [|v vs]; [reflexivity|].
  destruct (String.eqb_spec
              (join (String comma EmptyString) (map render_field (v :: vs)))
              "") as [E|N].
  - destruct (join_empty _ _ E) as [-> Hv]; simpl; rewrite Hv; reflexivity.
  - rewrite (start_record_nonempty _ N); apply join_fields.
Qed.

Lemma csv_read_csv_file (cols : list string) (records : list (list value)) :
  csv_read (csv_file cols records) = cols :: map (map field_text) records.
Proof.
  unfold csv_read; rewrite csv_rows_csv_file; cbn [map].
  rewrite csv_fields_record_text, !map_map; f_equal.
  - induction cols as [|c cols IH]; simpl; [reflexivity|].
    f_equal; exact IH.
  - apply map_ext; intros r; apply csv_fields_record_text.
Qed.

(** X11: the export reads back, field by field.  Each of the three
    files, split into records and each record into fields by a reader of
    the excel dialect, is the table's column names followed, for every
    stored row in order, by the texts of the row's values (a number as its
    decimal digits, NULL as the empty text), whatever commas, quotes or
    line breaks the texts hold. *)
Theorem export_csv_reads_back (now : datetime) (d : database) :
  map (fun f => csv_read (snd f)) (fst (export_csv now d))
  = [ employees_columns
        :: map (fun e => map field_text (employee_values e))
               (rows (employees d));
      tasks_columns
        :: map (fun t => map field_text (task_values t)) (rows (tasks d));
      shifts_columns
        :: map (fun s => map field_text (shift_values s)) (rows (shifts d)) ]
  /\
  (forall vs : list value, csv_fields (record_text vs) = map field_text vs).
Proof.
  split; [|exact csv_fields_record_text].
  unfold export_csv; simpl.
  rewrite !csv_read_csv_file, !map_map; reflexivity.
Qed.

End CsvRead.

(** ** Stamps and export directories *)

Section Stamps.

Lemma datetime_compare_eq (a b : datetime) :
  datetime_compare a b = Eq -> a = b.
Proof.
  destruct a as [y m d h mi], b as [y' m' d' h' mi'].
  unfold datetime_compare, lex; simpl.
  destruct (Z.compare_spec y y'); try discriminate.
  destruct (Z.compare_spec m m'); try discriminate.
  destruct (Z.compare_spec d d'); try discriminate.
  destruct (Z.compare_spec h h'); try discriminate.
  destruct (Z.compare_spec mi mi'); try discriminate.
  intros _; congruence.
Qed.

Lemma string_compare_refl (s : string) : String.compare s s = Eq.
Proof.
  induction s as [|c s IH]; simpl; [reflexivity|].
  unfold Ascii.compare; rewrite N.compare_refl; exact IH.
Qed.

(** X12: the stamps written to [created] and [updated] sort as the
    clock readings they come from and tell them apart: for two clock
    readings with years of four digits the stamps compare as texts exactly
    as the readings compare field by field (year, month, day, hour,
    minute), and equal stamps come from equal readings. *)
Theorem stamps_sort_chronologically (a b : datetime) :
  datetime_ok a -> datetime_ok b ->
  String.compare (strftime_DATE_FMT a) (strftime_DATE_FMT b)
  = datetime_compare a b /\
  (strftime_DATE_FMT a = strftime_DATE_FMT b -> a = b).
Proof.
  intros Ha Hb; pose proof (strftime_DATE_FMT_order a b Ha Hb) as H.
  split; [exact H|].
  intros E; rewrite E, string_compare_refl in H.
  apply datetime_compare_eq; symmetry; exact H.
Qed.

Lemma app_inj_length (a a' b b' : string) :
  String.length a = String.length a' ->
  a ++ b = a' ++ b' -> a = a' /\ b = b'.
Proof.
  revert a'; induction a as [|c a IH]; intros [|c' a'] Hl H; simpl in *;
    try discriminate Hl.
  - split; [reflexivity|exact H].
  - injection H as -> H; injection Hl as Hl.
    destruct (IH a' Hl H) as [-> ->]; split; reflexivity.
Qed.

Lemma two_digits_inj (x y : Z) :
  0 <= x <= 99 -> 0 <= y <= 99 ->
  zfill 2 (str_of_int x) = zfill 2 (str_of_int y) -> x = y.
Proof.
  intros Hx Hy E; pose proof (two_digits_order x y Hx Hy) as H.
  rewrite E, string_compare_refl in H; symmetry in H.
  apply Z.compare_eq in H; exact H.
Qed.

Lemma four_digits_inj (x y : Z) :
  0 <= x <= 9999 -> 0 <= y <= 9999 ->
  zfill 4 (str_of_int x) = zfill 4 (str_of_int y) -> x = y.
Proof.
  intros Hx Hy E; pose proof (four_digits_order x y Hx Hy) as H.
  rewrite E, string_compare_refl in H; symmetry in H.
  apply Z.compare_eq in H; exact H.
Qed.

(** X13: at clock readings with years of four digits, two exports
    share a directory exactly when the local clock reads the same year,
    month, day, hour and minute at both; the paths written depend on the
    clock reading alone, not on the database, so a second export at the
    same reading writes over the first; the directory's name is [export_]
    followed by eight digits, [_] and four digits. *)
Theorem outdir_same_minute (a b : datetime) (d1 d2 : database) :
  datetime_ok a -> datetime_ok b ->
  (outdir a = outdir b <-> a = b) /\
  map fst (fst (export_csv a d1)) = map fst (fst (export_csv a d2)) /\
  shape_ok "export_99999999_9999" (outdir a) = true.
Proof.
  intros (Ha1 & Ha2 & Ha3 & Ha4 & Ha5) (Hb1 & Hb2 & Hb3 & Hb4 & Hb5).
  split; [|split; [reflexivity|]].
  2:{ unfold outdir, strftime_stamp.
      rewrite <- (year_unpadded (year a)) by lia.
      change "export_99999999_9999"
        with ("export_" ++ "9999" ++ "99" ++ "99" ++ "_" ++ "99" ++ "99").
      repeat (apply shape_ok_app; [|]);
        try reflexivity;
        try (apply four_digits; lia); apply two_digits; lia. }
  split; [|intros ->; reflexivity].
  unfold outdir, strftime_stamp; intros H.
  rewrite <- (year_unpadded (year a)), <- (year_unpadded (year b)) in H
    by lia.
  apply (app_inj_length "export_" "export_") in H as [_ H]; [|reflexivity].
  apply app_inj_length in H as [Hy H];
    [|rewrite !four_digits_length by lia; reflexivity].
  apply app_inj_length in H as [Hm H];
    [|rewrite !two_digits_length by lia; reflexivity].
  apply app_inj_length in H as [Hd H];
    [|rewrite !two_digits_length by lia; reflexivity].
  apply (app_inj_length "_" "_") in H as [_ H]; [|reflexivity].
  apply app_inj_length in H as [Hh Hmi];
    [|rewrite !two_digits_length by lia; reflexivity].
  apply four_digits_inj in Hy; [|lia|lia].
  apply two_digits_inj in Hm, Hd, Hh, Hmi; try lia.
  destruct a, b; simpl in *; congruence.
Qed.

End Stamps.

(** ** Creating tasks, again *)

Section AddTaskMore.

Lemma left_join_app (ts1 ts2 : list task) (es : list employee) :
  left_join (ts1 ++ ts2) es = (left_join ts1 es ++ left_join ts2 es)%list.
Proof. unfold left_join; apply flat_map_app. Qed.

(** X14: a new task gets a fresh key and comes last in the listing.
    With unique employee keys, an assignee id the driver can bind (or
    none) and a tasks table that has a key left, [add_task] succeeds; the
    new key is the one the table gives, above every stored key; the
    unfiltered listing and the listing under [todo] are the former
    listings followed by the new task's line; the employee listings are
    unchanged. *)
Theorem add_task_appends (now : datetime) (title : string)
    (desc : option string) (a : option Z) (deadline : option string)
    (d : database) :
  bindable a ->
  has_key_left task_id (tasks d) ->
  NoDup (map emp_id (rows (employees d))) ->
  exists d' k t,
    add_task now title desc a deadline d = Ok d' /\
    next_id (map task_id (rows (tasks d))) (seq (tasks d)) = Ok k /\
    t = mk_task k title desc a "todo" deadline
                (strftime_DATE_FMT now) (strftime_DATE_FMT now) /\
    list_tasks None d'
    = (list_tasks None d
         ++ [task_line (task_row_of t (assignee_name (rows (employees d)) t))])
      %list /\
    list_tasks (Some "todo") d'
    = (list_tasks (Some "todo") d
         ++ [task_line (task_row_of t (assignee_name (rows (employees d)) t))])
      %list /\
    (forall x, In x (rows (tasks d)) -> task_id x < task_id t) /\
    (forall b, list_employees b d' = list_employees b d).
Proof.
  intros Ha Hleft Hnd.
  destruct (has_key_left_next_id _ _ _ Hleft) as [k Hk].
  rewrite (add_task_ok now title desc a deadline d k Ha Hk).
  eexists; exists k; eexists; split; [reflexivity|].
  split; [exact Hk|]. split; [reflexivity|].
  set (t := mk_task k title desc a "todo" deadline _ _).
  assert (Hl : forall f, status_filter f (task_row_of t None) = true ->
             list_tasks f (mk_database (employees d)
                             (mk_table (rows (tasks d) ++ [t]) k)
                             (shifts d))
             = (list_tasks f d
                  ++ [task_line (task_row_of t
                                   (assignee_name (rows (employees d)) t))])
               %list).
  { intros f Hf; unfold list_tasks, select_tasks; simpl.
    rewrite left_join_app, filter_app, map_app; f_equal.
    rewrite (left_join_unique_id [t] _ Hnd); simpl.
    rewrite (status_filter_name f t _ None), Hf; reflexivity. }
  split; [apply Hl; reflexivity|].
  split; [apply Hl; reflexivity|].
  split; [|reflexivity].
  intros x Hx; simpl.
  destruct (next_id_ok _ _ _ Hk) as (_ & Hids & _).
  rewrite Forall_forall in Hids; apply Hids, in_map, Hx.
Qed.

End AddTaskMore.

(** ** The width of a listing line *)

Section Width.

Lemma py_len_app (a b : string) :
  py_len (a ++ b) = (py_len a + py_len b)%nat.
Proof.
  induction a as [|c a IH]; simpl; [reflexivity|].
  destruct (is_continuation c); rewrite IH; reflexivity.
Qed.

Lemma py_len_spaces (n : nat) : py_len (repeat_char " "%char n) = n.
Proof. induction n; simpl; congruence. Qed.

Lemma py_len_ljust (w : nat) (s : string) :
  py_len (ljust w s) = Nat.max w (py_len s).
Proof. unfold ljust; rewrite py_len_app, py_len_spaces; lia. Qed.

Lemma py_len_rjust (w : nat) (s : string) :
  py_len (rjust w s) = Nat.max w (py_len s).
Proof. unfold rjust; rewrite py_len_app, py_len_spaces; lia. Qed.

Lemma short_int_3 (z : Z) : 0 <= z <= 999 -> short_int 3 z = true.
Proof.
  intros H; apply (forallb_below (short_int 3) 1000); [|lia].
  vm_compute; reflexivity.
Qed.

(** X15: the lines of [list_employees] are padded, never cut.  For an
    employee with a key from 0 to 999 and a role the CHECK accepts, the
    line has 21 characters besides the name column and the label; the name
    column has 20 characters, or as many as the name has when it has more;
    the label has 6 ([active]) or 8 ([inactive]).  So the lines of
    employees with names of at most 20 characters line up. *)
Theorem employee_line_width (e : employee) :
  0 <= emp_id e <= 999 ->
  role_check (emp_role e) = true ->
  py_len (employee_line e)
  = (21 + Nat.max 20 (py_len (emp_name e))
     + (if truthy_int (emp_active e) then 6 else 8))%nat.
Proof.
  intros Hid Hrole; unfold employee_line.
  repeat rewrite py_len_app; rewrite py_len_rjust, !py_len_ljust.
  pose proof (short_int_3 _ Hid) as Hs; unfold short_int in Hs.
  apply Nat.leb_le in Hs.
  assert (Hr : (py_len (emp_role e) <= 8)%nat).
  { unfold role_check, str_in in Hrole; simpl in Hrole.
    destruct (String.eqb_spec (emp_role e) "staff") as [->|_];
      [simpl; lia|].
    destruct (String.eqb_spec (emp_role e) "manager") as [->|_];
      [simpl; lia|discriminate Hrole]. }
  rewrite (Nat.max_l 3) by exact Hs; rewrite (Nat.max_l 8) by exact Hr.
  generalize (Nat.max 20 (py_len (emp_name e))); intros n.
  destruct (truthy_int (emp_active e)); simpl; lia.
Qed.

End Width.

Lemma employee_line_width_witness :
  0 <= emp_id alice <= 999 /\
  role_check (emp_role alice) = true /\
  py_len (employee_line alice) = 47%nat.
Proof.
  assert (H : 0 <= emp_id alice <= 999) by (simpl; lia).
  split; [exact H|]. split; [reflexivity|].
  exact (employee_line_width alice H eq_refl).
Defined.

(** ** The further properties at the sample data *)

Lemma clock_0100_ok : datetime_ok clock_0100.
Proof. unfold datetime_ok; simpl; lia. Defined.

Lemma sample_db_keys : NoDup (map emp_id (rows (employees sample_db))).
Proof. simpl; constructor; [intros []|constructor]. Defined.

Lemma sample_db_tasks_key_left : has_key_left task_id (tasks sample_db).
Proof.
  split; [constructor; [reflexivity|constructor]|reflexivity].
Defined.

Lemma sample_db_employees_key_left :
  has_key_left emp_id (employees sample_db).
Proof.
  split; [constructor; [reflexivity|constructor]|reflexivity].
Defined.

Lemma main_keeps_schema_witness :
  schema_ok (init_db empty_store) /\
  schema_ok (out_db (main clock_0159 (cmd_add_employee "Bob" "staff")
                          empty_store)).
Proof.
  split; [exact schema_ok_empty|].
  apply main_keeps_schema; exact schema_ok_empty.
Defined.

Lemma main_keeps_all_active_witness :
  all_active (init_db (store_of sample_db)) /\
  list_employees true
      (out_db (main clock_0159 (cmd_add_employee "Bob" "staff")
                    (store_of sample_db)))
  = list_employees false
      (out_db (main clock_0159 (cmd_add_employee "Bob" "staff")
                    (store_of sample_db))).
Proof.
  assert (H : all_active (init_db (store_of sample_db)))
    by (repeat constructor).
  split; [exact H|].
  apply (main_keeps_all_active clock_0159 (cmd_add_employee "Bob" "staff")
           (store_of sample_db) H).
Defined.

Lemma update_task_status_last_wins_witness :
  exists d1,
    update_task_status clock_0100 1 "done" sample_db = Ok d1 /\
    update_task_status clock_0159 1 "todo" d1
    = update_task_status clock_0159 1 "todo" sample_db.
Proof.
  eexists; split; [reflexivity|].
  exact (proj1 (update_task_status_last_wins clock_0100 clock_0159 1
                  "done" "todo" sample_db _ eq_refl)).
Defined.

Lemma update_task_status_invalid_status_witness :
  sqlite_int64 1 = true /\
  status_check "in-progress" = false /\
  update_task_status clock_0159 1 "in-progress" sample_db
  = Raise IntegrityError /\
  update_task_status clock_0159 7 "in-progress" sample_db = Ok sample_db.
Proof.
  split; [reflexivity|]. split; [reflexivity|]. split.
  - exact (update_task_status_invalid_status clock_0159 1 "in-progress"
             sample_db eq_refl eq_refl).
  - exact (update_task_status_invalid_status clock_0159 7 "in-progress"
             sample_db eq_refl eq_refl).
Defined.

Lemma list_tasks_one_line_per_task_witness :
  NoDup (map emp_id (rows (employees sample_db))) /\
  list_tasks None sample_db
  = [task_line_of 1 "Write report" "Alice" "todo" "-"].
Proof.
  split; [exact sample_db_keys|].
  exact (proj1 (list_tasks_one_line_per_task None sample_db sample_db_keys)).
Defined.

Lemma add_task_dangling_assignee_witness :
  sqlite_int64 5 = true /\
  has_key_left task_id (tasks sample_db) /\
  (forall e, In e (rows (employees sample_db)) -> emp_id e <> 5) /\
  exists d',
    add_task clock_0159 "Call back" None (Some 5) None sample_db = Ok d' /\
    In (task_line_of 2 "Call back" "unassigned" "todo" "-")
       (list_tasks None d').
Proof.
  assert (Hno : forall e, In e (rows (employees sample_db)) -> emp_id e <> 5)
    by (intros e [<-|[]]; discriminate).
  split; [reflexivity|]. split; [exact sample_db_tasks_key_left|].
  split; [exact Hno|].
  destruct (add_task_dangling_assignee clock_0159 "Call back" None 5 None
              sample_db eq_refl sample_db_tasks_key_left Hno)
    as (d' & t & Hadd & Hrows & _ & _ & Hin).
  exists d'; split; [exact Hadd|].
  vm_compute in Hadd; injection Hadd as <-.
  simpl in Hrows; injection Hrows as <-; exact Hin.
Defined.

Lemma add_employee_appends_witness :
  role_check "staff" = true /\
  has_key_left emp_id (employees sample_db) /\
  exists d',
    add_employee "Bob" "staff" sample_db = Ok d' /\
    list_employees true d'
    = (list_employees true sample_db
         ++ [employee_line (mk_employee 2 "Bob" "staff" 1)])%list.
Proof.
  split; [reflexivity|]. split; [exact sample_db_employees_key_left|].
  destruct (add_employee_appends "Bob" "staff" sample_db eq_refl
              sample_db_employees_key_left)
    as (d' & k & Hadd & Hk & Hl & _).
  exists d'; split; [exact Hadd|].
  vm_compute in Hk; injection Hk as <-; exact (Hl true).
Defined.

Lemma scenario_done_listing_witness :
  role_check "manager" = true /\
  exists d1 d2 d3,
    add_employee "Alice" "manager" (init_db empty_store) = Ok d1 /\
    add_task clock_0100 "Write report" (Some "") (Some 1) None d1 = Ok d2 /\
    update_task_status clock_0159 1 "done" d2 = Ok d3 /\
    list_tasks (Some "done") d3
    = [task_line_of 1 "Write report" "Alice" "done" "-"].
Proof.
  split; [reflexivity|].
  destruct (scenario_done_listing clock_0100 clock_0159 "Alice" "manager"
              "Write report" (Some "") None eq_refl)
    as (d1 & d2 & d3 & H1 & H2 & H3 & H4 & _).
  exists d1, d2, d3; repeat split; assumption.
Defined.

Lemma stamps_sort_chronologically_witness :
  datetime_ok clock_0100 /\ datetime_ok clock_0159 /\
  String.compare (strftime_DATE_FMT clock_0100) (strftime_DATE_FMT clock_0159)
  = Lt.
Proof.
  split; [exact clock_0100_ok|]. split; [exact clock_0159_ok|].
  exact (proj1 (stamps_sort_chronologically clock_0100 clock_0159
                  clock_0100_ok clock_0159_ok)).
Defined.

Lemma outdir_same_minute_witness :
  datetime_ok clock_0100 /\ datetime_ok clock_0159 /\
  (outdir clock_0100 = outdir clock_0159 <-> clock_0100 = clock_0159) /\
  shape_ok "export_99999999_9999" (outdir clock_0100) = true.
Proof.
  split; [exact clock_0100_ok|]. split; [exact clock_0159_ok|].
  destruct (outdir_same_minute clock_0100 clock_0159 sample_db sample_db
              clock_0100_ok clock_0159_ok) as (H & _ & Hs).
  split; [exact H|exact Hs].
Defined.

Lemma add_task_appends_witness :
  bindable (Some 1) /\
  has_key_left task_id (tasks sample_db) /\
  NoDup (map emp_id (rows (employees sample_db))) /\
  exists d',
    add_task clock_0159 "File report" None (Some 1) None sample_db = Ok d' /\
    list_tasks None d'
    = (list_tasks None sample_db
         ++ [task_line_of 2 "File report" "Alice" "todo" "-"])%list.
Proof.
  split; [reflexivity|]. split; [exact sample_db_tasks_key_left|].
  split; [exact sample_db_keys|].
  destruct (add_task_appends clock_0159 "File report" None (Some 1) None
              sample_db eq_refl sample_db_tasks_key_left sample_db_keys)
    as (d' & k & t & Hadd & Hk & -> & Hl & _).
  exists d'; split; [exact Hadd|].
  vm_compute in Hk; injection Hk as <-; exact Hl.
Defined.
